(** * ADBClientSession: the ADB host-server client protocol

    A shallow embedding of [automator/connector/ADBClientSession.py].

    - Python [bytes] are [list byte]; Python [str] is a list of Unicode
      code points; Python [int] is [Z].
    - The session owns one socket.  The state is a record holding the bytes
      the peer will still deliver on it (followed by end-of-stream), the log
      of the calls made on it, whether it has been closed, the wall clock,
      and the contents of memory that is handed out uninitialised.
    - Methods are computations in a state-and-exception monad over that
      record; a raised Python exception is a value of [exn]. *)

From Stdlib Require Import ZArith NArith List String Lia Bool.
From Stdlib Require Import Strings.Byte.
Import ListNotations.

Open Scope Z_scope.

(** ** Python values *)

Abbreviation bytes := (list byte).
Abbreviation str := (list N).

Definition len {A : Type} (l : list A) : Z := Z.of_nat (List.length l).

(** A [bytes] literal and an ASCII [str] literal. *)
Definition blit (s : string) : bytes := list_byte_of_string s.
Definition slit (s : string) : str := map Byte.to_N (list_byte_of_string s).

(** The byte of value [n], for [n] below 256. *)
Definition byte_of (n : N) : byte :=
  match Byte.of_N n with
  | Some b => b
  | None => x00
  end.

Definition bytes_eqb (a b : bytes) : bool :=
  if list_eq_dec Byte.byte_eq_dec a b then true else false.

Definition str_eqb (a b : str) : bool :=
  if list_eq_dec N.eq_dec a b then true else false.

(** Python slice bounds: a negative index counts from the end, and both
    bounds are clamped to the sequence. *)
Definition slice_index (i n : Z) : Z :=
  if i <? 0 then Z.max 0 (i + n) else Z.min i n.

(** [l[st:en]] *)
Definition slice {A : Type} (l : list A) (st en : Z) : list A :=
  let st' := slice_index st (len l) in
  let en' := slice_index en (len l) in
  firstn (Z.to_nat (en' - st')) (skipn (Z.to_nat st') l).

(** ** Exceptions

    The spec's [ProtocolError] is the code's [RuntimeError]; its
    [InvalidArgument] is the code's [ValueError].  A [RuntimeError] is raised
    with a [bytes] argument by [_check_okay] and with a [str] argument
    elsewhere. *)

Inductive exn_arg : Type :=
| ArgBytes (b : bytes)
| ArgStr (s : str).

Inductive exn : Type :=
| RuntimeError (arg : exn_arg)
| ValueError (msg : str)
| EOFError
| OSError
| UnicodeEncodeError
| UnicodeDecodeError
| StructError
| OverflowError.

(** ** The socket

    [self.sock] is the only socket of a session; [self_sock] is the
    reference to it that the code passes around and returns. *)

Inductive sockref : Type := self_sock.

Inductive event : Type :=
| EvSend (data : bytes)
| EvSendAll (data : bytes)
| EvRecvExactly (n : Z)
| EvRecvAll
| EvClose.

Record world : Type := mkWorld {
  incoming : bytes;
  trace : list event;
  closed : bool;
  clock : Z;
  uninit : nat -> byte
}.

Definition log (e : event) (s : world) : world :=
  mkWorld (incoming s) (trace s ++ [e]) (closed s) (clock s) (uninit s).

Definition set_incoming (b : bytes) (s : world) : world :=
  mkWorld b (trace s) (closed s) (clock s) (uninit s).

(** ** The monad *)

Definition M (A : Type) : Type := world -> (exn + A) * world.

Definition ret {A : Type} (a : A) : M A := fun s => (inr a, s).

Definition raise {A : Type} (e : exn) : M A := fun s => (inl e, s).

Definition bind {A B : Type} (m : M A) (k : A -> M B) : M B :=
  fun s =>
    match m s with
    | (inl e, s') => (inl e, s')
    | (inr a, s') => k a s'
    end.

Notation "x <- m ;; k" := (bind m (fun x => k))
  (at level 61, m at next level, right associativity).
Notation "m ;;; k" := (bind m (fun _ => k))
  (at level 61, right associativity).

(** Lifting a pure step that may raise. *)
Definition lift_opt {A : Type} (e : exn) (o : option A) : M A :=
  match o with
  | Some a => ret a
  | None => raise e
  end.

(** ** Socket primitives *)

(** [sock.send(data)].  The code ignores the count that [send] returns; the
    model takes the whole of [data] to be written. *)
Definition sock_send (sock : sockref) (data : bytes) : M unit :=
  fun s =>
    if closed s then (inl OSError, s)
    else (inr tt, log (EvSend data) s).

(** [sock.sendall(data)] *)
Definition sock_sendall (sock : sockref) (data : bytes) : M unit :=
  fun s =>
    if closed s then (inl OSError, s)
    else (inr tt, log (EvSendAll data) s).

(** [sock.close()] *)
Definition sock_close (sock : sockref) : M unit :=
  fun s =>
    (inr tt,
     mkWorld (incoming s) (trace s ++ [EvClose]) true (clock s) (uninit s)).

(** Modelled from the spec: [recvexactly] of [util.socketutil], which is not
    part of the sources at hand.  The spec gives
    [recv_exactly(stream, n) -> bytes], which "fails if the peer closes
    before n bytes arrive".  The spec gives no meaning to a negative count;
    the model rejects it. *)
Definition recvexactly (sock : sockref) (n : Z) : M bytes :=
  fun s =>
    if closed s then (inl OSError, s)
    else if n <? 0 then (inl (ValueError []), s)
    else if n <=? len (incoming s)
    then (inr (firstn (Z.to_nat n) (incoming s)),
          log (EvRecvExactly n) (set_incoming (skipn (Z.to_nat n) (incoming s)) s))
    else (inl EOFError, log (EvRecvExactly n) (set_incoming [] s)).

(** Modelled from the spec: [recvall] of [util.socketutil], which is not part
    of the sources at hand.  The spec gives [recv_all(stream) -> bytes],
    which "reads to end-of-stream". *)
Definition recvall (sock : sockref) : M bytes :=
  fun s =>
    if closed s then (inl OSError, s)
    else (inr (incoming s), log EvRecvAll (set_incoming [] s)).

(** [int(time.time())] *)
Definition time_now : M Z := fun s => (inr (clock s), s).

(** ** Text codecs: [str.encode()] and [bytes.decode()]

    Both default to UTF-8.  [encode] is strict: a surrogate code point
    raises.  [decode] is strict by default and skips the offending bytes
    under [errors='ignore']. *)

Module Utf8.
Local Open Scope N_scope.

Definition encode_cp (c : N) : option bytes :=
  if c <? 0x80 then Some [byte_of c]
  else if c <? 0x800 then
    Some [byte_of (0xC0 + c / 64); byte_of (0x80 + c mod 64)]
  else if c <? 0x10000 then
    if (0xD800 <=? c) && (c <=? 0xDFFF) then None
    else Some [byte_of (0xE0 + c / 4096);
               byte_of (0x80 + (c / 64) mod 64);
               byte_of (0x80 + c mod 64)]
  else if c <? 0x110000 then
    Some [byte_of (0xF0 + c / 262144);
          byte_of (0x80 + (c / 4096) mod 64);
          byte_of (0x80 + (c / 64) mod 64);
          byte_of (0x80 + c mod 64)]
  else None.

Fixpoint encode (s : str) : option bytes :=
  match s with
  | [] => Some []
  | c :: rest =>
      match encode_cp c, encode rest with
      | Some b, Some bs => Some (b ++ bs)
      | _, _ => None
      end
  end.

Inductive errors : Type := strict | ignore.

Definition is_cont (b : byte) : bool :=
  (0x80 <=? Byte.to_N b) && (Byte.to_N b <? 0xC0).

(** What an ill-formed sequence does: raise, or drop it and go on with
    [rest]. *)
Definition ill_formed (h : errors) (rest : option str) : option str :=
  match h with
  | strict => None
  | ignore => rest
  end.

Definition emit (c : N) (rest : option str) : option str :=
  option_map (cons c) rest.

Definition cp2 (b1 b2 : byte) : N :=
  (Byte.to_N b1 - 0xC0) * 64 + (Byte.to_N b2 - 0x80).
Definition cp3 (b1 b2 b3 : byte) : N :=
  (Byte.to_N b1 - 0xE0) * 4096 + (Byte.to_N b2 - 0x80) * 64
  + (Byte.to_N b3 - 0x80).
Definition cp4 (b1 b2 b3 b4 : byte) : N :=
  (Byte.to_N b1 - 0xF0) * 262144 + (Byte.to_N b2 - 0x80) * 4096
  + (Byte.to_N b3 - 0x80) * 64 + (Byte.to_N b4 - 0x80).

(** Second byte of a three-byte sequence: [E0] needs [A0..BF] (no overlong
    form), [ED] needs [80..9F] (no surrogate). *)
Definition ok2_of3 (b1 b2 : byte) : bool :=
  is_cont b2 &&
  negb (if Byte.to_N b2 <? 0xA0 then Byte.to_N b1 =? 0xE0
        else Byte.to_N b1 =? 0xED).

(** Second byte of a four-byte sequence: [F0] needs [90..BF], [F4] needs
    [80..8F]. *)
Definition ok2_of4 (b1 b2 : byte) : bool :=
  is_cont b2 &&
  negb (if Byte.to_N b2 <? 0x90 then Byte.to_N b1 =? 0xF0
        else Byte.to_N b1 =? 0xF4).

(** An invalid start byte drops one byte, an invalid continuation byte at
    position [k] drops the [k] bytes before it, and a sequence cut short by
    the end of the data drops all that is left. *)
Fixpoint decode (h : errors) (s : bytes) : option str :=
  match s with
  | [] => Some []
  | b1 :: t1 =>
      let ch := Byte.to_N b1 in
      if ch <? 0x80 then emit ch (decode h t1)
      else if ch <? 0xC2 then ill_formed h (decode h t1)
      else if ch <? 0xE0 then
        match t1 with
        | [] => ill_formed h (Some [])
        | b2 :: t2 =>
            if is_cont b2 then emit (cp2 b1 b2) (decode h t2)
            else ill_formed h (decode h t1)
        end
      else if ch <? 0xF0 then
        match t1 with
        | [] => ill_formed h (Some [])
        | b2 :: t2 =>
            if ok2_of3 b1 b2 then
              match t2 with
              | [] => ill_formed h (Some [])
              | b3 :: t3 =>
                  if is_cont b3 then emit (cp3 b1 b2 b3) (decode h t3)
                  else ill_formed h (decode h t2)
              end
            else ill_formed h (decode h t1)
        end
      else if ch <? 0xF5 then
        match t1 with
        | [] => ill_formed h (Some [])
        | b2 :: t2 =>
            if ok2_of4 b1 b2 then
              match t2 with
              | [] => ill_formed h (Some [])
              | b3 :: t3 =>
                  if is_cont b3 then
                    match t3 with
                    | [] => ill_formed h (Some [])
                    | b4 :: t4 =>
                        if is_cont b4
                        then emit (cp4 b1 b2 b3 b4) (decode h t4)
                        else ill_formed h (decode h t3)
                    end
                  else ill_formed h (decode h t2)
              end
            else ill_formed h (decode h t1)
        end
      else ill_formed h (decode h t1)
  end.

End Utf8.

(** [s.encode()] *)
Definition str_encode (s : str) : M bytes :=
  lift_opt UnicodeEncodeError (Utf8.encode s).

(** [b.decode()] and [b.decode(errors='ignore')] *)
Definition bytes_decode (h : Utf8.errors) (b : bytes) : M str :=
  lift_opt UnicodeDecodeError (Utf8.decode h b).

(** ** Formatting and parsing of integers *)

Module Fmt.

(** The upper-case hexadecimal digit of value [v], for [v] below 16. *)
Definition hex_digit (v : Z) : byte :=
  if v <? 10 then byte_of (Z.to_N (48 + v)) else byte_of (Z.to_N (55 + v)).

(** How many hexadecimal digits a natural number takes. *)
Definition hex_width (m : Z) : Z :=
  if m =? 0 then 1 else Z.log2 m / 4 + 1.

Fixpoint dec_digits (u : Decimal.uint) : bytes :=
  match u with
  | Decimal.Nil => []
  | Decimal.D0 u => "0"%byte :: dec_digits u
  | Decimal.D1 u => "1"%byte :: dec_digits u
  | Decimal.D2 u => "2"%byte :: dec_digits u
  | Decimal.D3 u => "3"%byte :: dec_digits u
  | Decimal.D4 u => "4"%byte :: dec_digits u
  | Decimal.D5 u => "5"%byte :: dec_digits u
  | Decimal.D6 u => "6"%byte :: dec_digits u
  | Decimal.D7 u => "7"%byte :: dec_digits u
  | Decimal.D8 u => "8"%byte :: dec_digits u
  | Decimal.D9 u => "9"%byte :: dec_digits u
  end.

Definition sign_of (n : Z) : bytes :=
  if n <? 0 then ["-"%byte] else [].

(** [b'%04X' % n]: upper-case hexadecimal, zero-padded to a width of
    four, the sign included; a wider number is not cut.  The digit at
    position [i] from the right is [(|n| / 16^i) mod 16]. *)
Definition format_04X (n : Z) : bytes :=
  let m := Z.abs n in
  let width := Z.max (4 - len (sign_of n)) (hex_width m) in
  sign_of n
  ++ map (fun i => hex_digit ((m / 16 ^ Z.of_nat i) mod 16))
         (rev (seq 0 (Z.to_nat width))).

(** [b'%d' % n] *)
Definition format_d (n : Z) : bytes :=
  sign_of n ++ dec_digits (N.to_uint (Z.abs_N n)).

(** [struct.pack("<I", n)]: four bytes, least significant first; a value
    outside [0, 2^32) raises [struct.error]. *)
Definition struct_pack_I (n : Z) : option bytes :=
  if (0 <=? n) && (n <? 4294967296) then
    Some [byte_of (Z.to_N (n mod 256));
          byte_of (Z.to_N ((n / 256) mod 256));
          byte_of (Z.to_N ((n / 65536) mod 256));
          byte_of (Z.to_N ((n / 16777216) mod 256))]
  else None.

(** *** [int(b, 16)]

    Python strips surrounding white space, takes an optional sign and an
    optional [0x] prefix, and then reads hexadecimal digits, between which
    single underscores may stand.  Anything else raises [ValueError]. *)

Definition is_space (b : byte) : bool :=
  let n := Byte.to_N b in
  ((n =? 32) || ((9 <=? n) && (n <=? 13)))%N.

Definition hex_value (b : byte) : option Z :=
  let n := Z.of_N (Byte.to_N b) in
  if (48 <=? n) && (n <=? 57) then Some (n - 48)
  else if (65 <=? n) && (n <=? 70) then Some (n - 55)
  else if (97 <=? n) && (n <=? 102) then Some (n - 87)
  else None.

Definition is_underscore (b : byte) : bool := Byte.eqb b "_"%byte.

Fixpoint skip_spaces (s : bytes) : bytes :=
  match s with
  | c :: rest => if is_space c then skip_spaces rest else s
  | [] => []
  end.

(** The digit loop: [prev_us] tells whether the previous character was an
    underscore, [seen] whether a character has been consumed.  It returns the
    value and what is left of the input. *)
Fixpoint scan_digits (prev_us seen : bool) (acc : Z) (s : bytes)
  : option (Z * bool * bytes) :=
  match s with
  | [] => if prev_us then None else Some (acc, seen, [])
  | c :: rest =>
      if is_underscore c then
        if prev_us then None else scan_digits true true acc rest
      else
        match hex_value c with
        | Some d => scan_digits false true (acc * 16 + d) rest
        | None => if prev_us then None else Some (acc, seen, s)
        end
  end.

Definition strip_sign (s : bytes) : Z * bytes :=
  match s with
  | c :: rest =>
      if Byte.eqb c "+"%byte then (1, rest)
      else if Byte.eqb c "-"%byte then (-1, rest)
      else (1, s)
  | [] => (1, [])
  end.

Definition strip_0x (s : bytes) : bytes :=
  match s with
  | c0 :: c1 :: rest =>
      if Byte.eqb c0 "0"%byte
         && (Byte.eqb c1 "x"%byte || Byte.eqb c1 "X"%byte)
      then match rest with
           | c2 :: rest' => if is_underscore c2 then rest' else rest
           | [] => rest
           end
      else s
  | _ => s
  end.

Definition int16 (b : bytes) : option Z :=
  let (sign, s1) := strip_sign (skip_spaces b) in
  let s2 := strip_0x s1 in
  match s2 with
  | c :: _ => if is_underscore c then None else
      match scan_digits false false 0 s2 with
      | Some (v, true, rest) =>
          match skip_spaces rest with
          | [] => Some (sign * v)
          | _ :: _ => None
          end
      | _ => None
      end
  | [] => None
  end.

End Fmt.

(** ** Text helpers *)

Module Text.

(** The line boundaries of [str.splitlines]. *)
Definition is_linebreak (c : N) : bool :=
  ((c =? 0x0A) || (c =? 0x0D) || (c =? 0x0B) || (c =? 0x0C)
   || (c =? 0x1C) || (c =? 0x1D) || (c =? 0x1E) || (c =? 0x85)
   || (c =? 0x2028) || (c =? 0x2029))%N.

(** [s.splitlines()]: lines without their terminators; [\r\n] is one
    terminator; no empty line follows a final terminator. *)
Fixpoint splitlines (s : str) : list str :=
  match s with
  | [] => []
  | c :: rest =>
      if is_linebreak c then
        [] :: (if (c =? 0x0D)%N then
                 match rest with
                 | c' :: rest' =>
                     if (c' =? 0x0A)%N then splitlines rest'
                     else splitlines rest
                 | [] => []
                 end
               else splitlines rest)
      else
        match splitlines rest with
        | line :: lines => (c :: line) :: lines
        | [] => [[c]]
        end
  end.

(** [s.split(sep)] for a one-character separator. *)
Fixpoint split (sep : N) (s : str) : list str :=
  match s with
  | [] => [[]]
  | c :: rest =>
      if (c =? sep)%N then [] :: split sep rest
      else
        match split sep rest with
        | field :: fields => (c :: field) :: fields
        | [] => [[c]]
        end
  end.

Fixpoint starts_with (p s : str) : bool :=
  match p, s with
  | [], _ => true
  | _ :: _, [] => false
  | a :: p', b :: s' => (a =? b)%N && starts_with p' s'
  end.

(** [p in s] *)
Fixpoint contains (p s : str) : bool :=
  starts_with p s ||
  match s with
  | [] => false
  | _ :: s' => contains p s'
  end.

Definition tab : N := 9%N.

End Text.

(** ** NumPy helpers *)

Module Np.

(** [np.arange(start, stop, step)] on integers, [step] not zero. *)
Definition arange (start stop step : Z) : list Z :=
  let n := Z.to_nat (- ((start - stop) / step)) in
  map (fun i => start + Z.of_nat i * step) (seq 0 n).

(** [np.array_split(ary, indices)] with a sequence of indices: the cut
    points are [0], the indices and the size, and section [i] is the slice
    between cut points [i] and [i+1]. *)
Definition array_split {A : Type} (ary : list A) (indices : list Z)
  : list (list A) :=
  let Nsections := (List.length indices + 1)%nat in
  let div_points := [0] ++ indices ++ [len ary] in
  map (fun i => slice ary (nth i div_points 0) (nth (S i) div_points 0))
      (seq 0 Nsections).

(** [np.empty(n, dtype=np.uint8)]: memory as it is found. *)
Definition empty (n : Z) : M bytes :=
  fun s => (inr (map (uninit s) (seq 0 (Z.to_nat n))), s).

(** [buf[st:en] = v] on a one-dimensional array: the value must have the
    size of the slice, or be a single element, which is then repeated. *)
Definition setslice (buf : bytes) (st en : Z) (v : bytes) : option bytes :=
  let st' := slice_index st (len buf) in
  let en' := Z.max st' (slice_index en (len buf)) in
  let before := firstn (Z.to_nat st') buf in
  let after := skipn (Z.to_nat en') buf in
  if len v =? en' - st' then Some (before ++ v ++ after)
  else
    match v with
    | [x] => Some (before ++ repeat x (Z.to_nat (en' - st')) ++ after)
    | _ => None
    end.

End Np.

(** ** The module-level helpers *)

Definition OKAY : bytes := blit "OKAY".

Definition _read_hexlen (sock : sockref) : M bytes :=
  digits <- recvexactly sock 4 ;;
  textlen <- lift_opt (ValueError (slit "invalid literal for int()"))
                      (Fmt.int16 digits) ;;
  if textlen =? 0 then ret []
  else
    buf <- recvexactly sock textlen ;;
    ret buf.

Definition _check_okay (sock : sockref) : M unit :=
  result <- recvexactly sock 4 ;;
  if negb (bytes_eqb result OKAY) then
    msg <- _read_hexlen sock ;;
    raise (RuntimeError (ArgBytes msg))
  else ret tt.

(** ** The methods of [ADBClientSession]

    A method that returns [self] returns [tt] here: the caller goes on with
    the same state. *)

Definition close : M unit := sock_close self_sock.

Definition service (cmd : str) : M unit :=
  cmdbytes <- str_encode cmd ;;
  let data := Fmt.format_04X (len cmdbytes) ++ cmdbytes in
  sock_send self_sock data ;;;
  _check_okay self_sock ;;;
  ret tt.

Definition read_response : M bytes := _read_hexlen self_sock.

(** A row of [devices] is the tuple of the fields of a line, here a list. *)
Definition devices : M (list (list str)) :=
  service (slit "host:devices") ;;;
  raw <- read_response ;;
  resp <- bytes_decode Utf8.strict raw ;;
  ret (map (fun line => Text.split Text.tab line) (Text.splitlines resp)).

(** [logger.debug] has no effect on the session and is left out. *)
Definition connect (device : str) : M unit :=
  service (slit "host:connect:" ++ device) ;;;
  raw <- read_response ;;
  resp <- bytes_decode Utf8.ignore raw ;;
  if Text.contains (slit "unable") resp || Text.contains (slit "cannot") resp
  then raise (RuntimeError (ArgStr resp))
  else ret tt.

Definition disconnect (device : str) : M unit :=
  service (slit "host:disconnect:" ++ device) ;;;
  raw <- read_response ;;
  resp <- bytes_decode Utf8.ignore raw ;;
  if Text.contains (slit "unable") resp || Text.contains (slit "cannot") resp
  then raise (RuntimeError (ArgStr resp))
  else ret tt.

Definition device (devid : option str) : M unit :=
  match devid with
  | None => service (slit "host:transport-any")
  | Some d => service (slit "host:transport:" ++ d)
  end.

Definition usbdevice : M unit := service (slit "host:transport-usb").

Definition emulator : M unit := service (slit "host:transport-local").

(** An omitted [cmd] is [None]; the default is the empty string. *)
Definition exec_stream (cmd : option str) : M sockref :=
  let cmd := match cmd with Some c => c | None => slit "" end in
  service (slit "exec:" ++ cmd) ;;;
  ret self_sock.

Definition exec (cmd : str) : M bytes :=
  if len cmd =? 0 then
    raise (ValueError (slit "no command specified for blocking exec"))
  else
    sock <- exec_stream (Some cmd) ;;
    data <- recvall sock ;;
    sock_close sock ;;;
    ret data.

Definition shell_stream (cmd : option str) : M sockref :=
  let cmd := match cmd with Some c => c | None => slit "" end in
  service (slit "shell:" ++ cmd) ;;;
  ret self_sock.

Definition shell (cmd : str) : M bytes :=
  if len cmd =? 0 then
    raise (ValueError (slit "no command specified for blocking shell"))
  else
    sock <- shell_stream (Some cmd) ;;
    data <- recvall sock ;;
    sock_close sock ;;;
    ret data.

(** The body of the [for] loop of [push], over the sections still to send;
    [sendbuf] is the staging buffer, reused from one section to the next. *)
Fixpoint push_loop (sendbuf : bytes) (sections : list bytes) : M bytes :=
  match sections with
  | [] => ret sendbuf
  | arr :: rest =>
      field <- lift_opt OverflowError (Fmt.struct_pack_I (len arr)) ;;
      sendbuf <- lift_opt (ValueError (slit "could not broadcast"))
                          (Np.setslice sendbuf 4 8 field) ;;
      sendbuf <- lift_opt (ValueError (slit "could not broadcast"))
                          (Np.setslice sendbuf 8 (8 + len arr) arr) ;;
      sock_sendall self_sock (slice sendbuf 0 (8 + len arr)) ;;;
      push_loop sendbuf rest
  end.

(** [mode] and [mtime] are [None] when omitted; [0o100755] is [33261]. *)
Definition push (target_path : str) (buffer : bytes)
                (mode mtime : option Z) : M unit :=
  let mode := match mode with Some m => m | None => 33261 end in
  service (slit "sync:") ;;;
  path <- str_encode target_path ;;
  let request := path ++ blit "," ++ Fmt.format_d mode in
  hdr <- lift_opt StructError (Fmt.struct_pack_I (len request)) ;;
  sock_send self_sock (blit "SEND" ++ hdr ++ request) ;;;
  sendbuf <- Np.empty (65536 + 8) ;;
  sendbuf <- lift_opt (ValueError (slit "could not broadcast"))
                      (Np.setslice sendbuf 0 4 (blit "DATA")) ;;
  let input_arr := buffer in
  push_loop sendbuf
    (Np.array_split input_arr (Np.arange 65536 (len input_arr) 65536)) ;;;
  mtime <- match mtime with Some t => ret t | None => time_now end ;;
  trailer <- lift_opt StructError (Fmt.struct_pack_I mtime) ;;
  sock_sendall self_sock (blit "DONE" ++ trailer) ;;;
  response <- recvexactly self_sock 8 ;;
  sock_close self_sock ;;;
  if negb (bytes_eqb (slice response 0 4) OKAY) then
    raise (RuntimeError (ArgStr (slit "push failed")))
  else ret tt.

(** * Properties *)

(** ** Lists and lengths *)

Lemma len_nonneg {A : Type} (l : list A) : 0 <= len l.
Proof. unfold len. lia. Qed.

Lemma len_app {A : Type} (a b : list A) : len (a ++ b) = len a + len b.
Proof. unfold len. rewrite length_app. lia. Qed.

Lemma len_nil_iff {A : Type} (l : list A) : len l = 0 <-> l = [].
Proof.
  unfold len. split.
  - destruct l; [reflexivity | simpl; lia].
  - intros ->. reflexivity.
Qed.

Lemma to_nat_len {A : Type} (l : list A) : Z.to_nat (len l) = List.length l.
Proof. unfold len. apply Nat2Z.id. Qed.

Lemma firstn_len_app {A : Type} (a b : list A) (n : Z) :
  len a = n -> firstn (Z.to_nat n) (a ++ b) = a.
Proof.
  intros <-. rewrite to_nat_len, firstn_app, firstn_all, Nat.sub_diag.
  simpl. apply app_nil_r.
Qed.

Lemma skipn_len_app {A : Type} (a b : list A) (n : Z) :
  len a = n -> skipn (Z.to_nat n) (a ++ b) = b.
Proof.
  intros <-. rewrite to_nat_len, skipn_app, skipn_all, Nat.sub_diag.
  reflexivity.
Qed.

Lemma bytes_eqb_eq (a b : bytes) : bytes_eqb a b = true <-> a = b.
Proof.
  unfold bytes_eqb. destruct (list_eq_dec Byte.byte_eq_dec a b); split;
    intros; congruence.
Qed.

Lemma bytes_eqb_refl (a : bytes) : bytes_eqb a a = true.
Proof. apply bytes_eqb_eq. reflexivity. Qed.

Lemma bytes_eqb_neq (a b : bytes) : a <> b -> bytes_eqb a b = false.
Proof.
  intros H. destruct (bytes_eqb a b) eqn:E; [|reflexivity].
  apply bytes_eqb_eq in E. contradiction.
Qed.

(** ** Running the socket primitives *)

Section Primitives.
Variables (clk : Z) (u : nat -> byte) (sock : sockref).

Lemma recvexactly_ok (n : Z) (a rest : bytes) tr :
  len a = n ->
  recvexactly sock n (mkWorld (a ++ rest) tr false clk u)
  = (inr a, mkWorld rest (tr ++ [EvRecvExactly n]) false clk u).
Proof.
  intros Hn. unfold recvexactly, log, set_incoming. simpl.
  pose proof (len_nonneg a). pose proof (len_nonneg rest).
  destruct (Z.ltb_spec n 0); [lia|].
  destruct (Z.leb_spec n (len (a ++ rest))).
  - rewrite firstn_len_app, skipn_len_app by assumption. reflexivity.
  - rewrite len_app in *. lia.
Qed.

Lemma sock_send_ok (inc data : bytes) tr :
  sock_send sock data (mkWorld inc tr false clk u)
  = (inr tt, mkWorld inc (tr ++ [EvSend data]) false clk u).
Proof. reflexivity. Qed.

Lemma sock_sendall_ok (inc data : bytes) tr :
  sock_sendall sock data (mkWorld inc tr false clk u)
  = (inr tt, mkWorld inc (tr ++ [EvSendAll data]) false clk u).
Proof. reflexivity. Qed.

(** A reply that is not [OKAY], then a length field, then the text. *)
Lemma check_okay_fail (status lenfield payload rest : bytes) (L : Z) tr :
  len status = 4 -> status <> OKAY ->
  len lenfield = 4 -> Fmt.int16 lenfield = Some L ->
  len payload = L ->
  _check_okay sock
    (mkWorld (status ++ lenfield ++ payload ++ rest) tr false clk u)
  = (inl (RuntimeError (ArgBytes payload)),
     mkWorld rest
       (tr ++ [EvRecvExactly 4; EvRecvExactly 4]
           ++ (if L =? 0 then [] else [EvRecvExactly L]))
       false clk u).
Proof.
  intros Hs Hne Hl Hint Hp.
  unfold _check_okay, _read_hexlen, bind.
  rewrite recvexactly_ok by assumption.
  rewrite (bytes_eqb_neq _ _ Hne). simpl.
  unfold bind. rewrite recvexactly_ok by assumption.
  rewrite Hint. simpl.
  destruct (Z.eqb_spec L 0) as [E|E].
  - subst L. apply len_nil_iff in E. subst payload. simpl.
    unfold ret, raise. rewrite <- app_assoc. reflexivity.
  - unfold bind. rewrite <- app_assoc.
    rewrite recvexactly_ok by assumption. unfold ret, raise.
    rewrite <- app_assoc. reflexivity.
Qed.

Lemma check_okay_ok (rest : bytes) tr :
  _check_okay sock (mkWorld (OKAY ++ rest) tr false clk u)
  = (inr tt, mkWorld rest (tr ++ [EvRecvExactly 4]) false clk u).
Proof.
  unfold _check_okay, bind.
  rewrite recvexactly_ok by reflexivity.
  rewrite bytes_eqb_refl. reflexivity.
Qed.

(** A length field, then the text. *)
Lemma read_hexlen_ok (lenfield payload rest : bytes) tr :
  len lenfield = 4 -> Fmt.int16 lenfield = Some (len payload) ->
  _read_hexlen sock (mkWorld (lenfield ++ payload ++ rest) tr false clk u)
  = (inr payload,
     mkWorld rest
       (tr ++ [EvRecvExactly 4]
           ++ (if len payload =? 0 then [] else [EvRecvExactly (len payload)]))
       false clk u).
Proof.
  intros Hl Hint. unfold _read_hexlen, bind.
  rewrite recvexactly_ok by assumption.
  rewrite Hint. simpl.
  destruct (Z.eqb_spec (len payload) 0) as [E|E].
  - apply len_nil_iff in E. subst payload. reflexivity.
  - unfold bind. rewrite recvexactly_ok by reflexivity.
    unfold ret. rewrite <- app_assoc. reflexivity.
Qed.
End Primitives.

(** The request that [service] writes for the encoded command. *)
Definition request_of (cmdbytes : bytes) : bytes :=
  Fmt.format_04X (len cmdbytes) ++ cmdbytes.

Lemma service_ok (cmd : str) (cmdbytes rest : bytes) tr clk u :
  Utf8.encode cmd = Some cmdbytes ->
  service cmd (mkWorld (OKAY ++ rest) tr false clk u)
  = (inr tt,
     mkWorld rest (tr ++ [EvSend (request_of cmdbytes); EvRecvExactly 4])
             false clk u).
Proof.
  intros He. unfold service, str_encode, bind. rewrite He.
  unfold lift_opt, ret. cbv beta iota.
  rewrite sock_send_ok. cbv beta iota.
  rewrite check_okay_ok. rewrite <- app_assoc. reflexivity.
Qed.

Lemma service_fail (cmd : str) (cmdbytes status lenfield payload rest : bytes)
      (L : Z) tr clk u :
  Utf8.encode cmd = Some cmdbytes ->
  len status = 4 -> status <> OKAY ->
  len lenfield = 4 -> Fmt.int16 lenfield = Some L -> len payload = L ->
  service cmd (mkWorld (status ++ lenfield ++ payload ++ rest) tr false clk u)
  = (inl (RuntimeError (ArgBytes payload)),
     mkWorld rest
       (tr ++ [EvSend (request_of cmdbytes); EvRecvExactly 4; EvRecvExactly 4]
           ++ (if L =? 0 then [] else [EvRecvExactly L]))
       false clk u).
Proof.
  intros He Hs Hne Hl Hint Hp. unfold service, str_encode, bind. rewrite He.
  unfold lift_opt, ret. cbv beta iota.
  rewrite sock_send_ok. cbv beta iota.
  rewrite (check_okay_fail clk u self_sock status lenfield payload rest L)
    by assumption.
  rewrite <- app_assoc. reflexivity.
Qed.

Lemma encode_app (a b : str) :
  Utf8.encode (a ++ b)
  = match Utf8.encode a, Utf8.encode b with
    | Some x, Some y => Some (x ++ y)
    | _, _ => None
    end.
Proof.
  induction a as [|c a IH]; simpl.
  - destruct (Utf8.encode b); reflexivity.
  - rewrite IH. destruct (Utf8.encode_cp c); [|reflexivity].
    destruct (Utf8.encode a); [|reflexivity].
    destruct (Utf8.encode b); [|reflexivity].
    rewrite app_assoc. reflexivity.
Qed.

(** A session that has just been opened, with [inc] yet to arrive. *)
Definition fresh (inc : bytes) : world :=
  mkWorld inc [] false 0 (fun _ => x00).

(** ** The status reply of a service request *)

(** C5: when the four status bytes are not [OKAY], [service] raises
    [RuntimeError] (the spec's ProtocolError) with the text that follows the
    four-digit hexadecimal length field.  A field of value zero gives the
    empty text and nothing more is read; a field of value [L] other than
    zero makes one more read, of exactly [L] bytes, which are the text.  The
    field [0000] has value zero. *)
Theorem service_not_okay_raises_fail_payload :
  forall (s : world) (cmd : str)
         (cmdbytes status lenfield payload rest : bytes) (L : Z),
    closed s = false ->
    Utf8.encode cmd = Some cmdbytes ->
    len status = 4 -> status <> OKAY ->
    len lenfield = 4 -> Fmt.int16 lenfield = Some L ->
    len payload = L ->
    incoming s = status ++ lenfield ++ payload ++ rest ->
    service cmd s
    = (inl (RuntimeError (ArgBytes payload)),
       mkWorld rest
         (trace s
            ++ [EvSend (request_of cmdbytes);
                EvRecvExactly 4; EvRecvExactly 4]
            ++ (if L =? 0 then [] else [EvRecvExactly L]))
         false (clock s) (uninit s))
    /\ (lenfield = blit "0000" -> L = 0 /\ payload = []).
Proof.
  intros [inc tr cl clk u] cmd cmdbytes status lenfield payload rest L.
  simpl. intros -> He Hs Hne Hl Hint Hp ->. split.
  - apply service_fail; assumption.
  - intros ->. vm_compute in Hint. injection Hint as <-.
    split; [reflexivity|]. now apply len_nil_iff.
Qed.

Lemma service_not_okay_raises_fail_payload_witness :
  (service (slit "host:devices") (fresh (blit "FAIL0003abcdef"))
   = (inl (RuntimeError (ArgBytes (blit "abc"))),
      mkWorld (blit "def")
        [EvSend (blit "000Chost:devices");
         EvRecvExactly 4; EvRecvExactly 4; EvRecvExactly 3]
        false 0 (uninit (fresh [])))
   /\ (blit "0003" = blit "0000" -> 3 = 0 /\ blit "abc" = []))
  /\
  (service (slit "host:devices") (fresh (blit "FAIL0000def"))
   = (inl (RuntimeError (ArgBytes [])),
      mkWorld (blit "def")
        [EvSend (blit "000Chost:devices");
         EvRecvExactly 4; EvRecvExactly 4]
        false 0 (uninit (fresh [])))
   /\ (blit "0000" = blit "0000" -> 0 = 0 /\ @nil byte = [])).
Proof.
  split.
  - apply (service_not_okay_raises_fail_payload
             (fresh (blit "FAIL0003abcdef")) (slit "host:devices")
             (blit "host:devices") (blit "FAIL") (blit "0003") (blit "abc")
             (blit "def") 3);
      try reflexivity.
    discriminate.
  - apply (service_not_okay_raises_fail_payload
             (fresh (blit "FAIL0000def")) (slit "host:devices")
             (blit "host:devices") (blit "FAIL") (blit "0000") []
             (blit "def") 0);
      try reflexivity.
    discriminate.
Defined.

(** ** Blocking and streaming commands *)

(** C9: [exec("")] and [shell("")] raise [ValueError] (the spec's
    InvalidArgument) and leave the session as it was: nothing is written to
    the socket and nothing is read from it. *)
Theorem blocking_calls_reject_empty_command :
  forall s : world,
    exec (slit "") s
    = (inl (ValueError (slit "no command specified for blocking exec")), s)
    /\ shell (slit "") s
       = (inl (ValueError (slit "no command specified for blocking shell")), s).
Proof. intros s. split; reflexivity. Qed.

Lemma stream_ok (prefix cmd : str) (cmdbytes rest : bytes) tr clk u :
  Utf8.encode (prefix ++ cmd) = Some cmdbytes ->
  (service (prefix ++ cmd) ;;; ret self_sock)
    (mkWorld (OKAY ++ rest) tr false clk u)
  = (inr self_sock,
     mkWorld rest (tr ++ [EvSend (request_of cmdbytes); EvRecvExactly 4])
             false clk u).
Proof.
  intros He. unfold bind. rewrite (service_ok _ _ _ _ _ _ He). reflexivity.
Qed.

(** C10: [exec_stream] and [shell_stream] take any command, the empty one
    and an omitted one included: the first thing they do is to write the
    service request ([exec:] or [shell:] followed by the command, nothing
    when it is empty or omitted), and on an [OKAY] reply they return the
    session's socket.  The blocking [exec] and [shell] refuse the empty
    command on the same session. *)
Theorem streaming_calls_accept_empty_command :
  forall (s : world) (rest : bytes),
    closed s = false ->
    incoming s = OKAY ++ rest ->
    let after (request : bytes) :=
      mkWorld rest (trace s ++ [EvSend request; EvRecvExactly 4])
              false (clock s) (uninit s) in
    exec_stream None s = (inr self_sock, after (blit "0005exec:"))
    /\ exec_stream (Some (slit "")) s = (inr self_sock, after (blit "0005exec:"))
    /\ shell_stream None s = (inr self_sock, after (blit "0006shell:"))
    /\ shell_stream (Some (slit "")) s
       = (inr self_sock, after (blit "0006shell:"))
    /\ (forall (cmd : str) (cmdbytes : bytes),
          Utf8.encode cmd = Some cmdbytes ->
          exec_stream (Some cmd) s
          = (inr self_sock, after (request_of (blit "exec:" ++ cmdbytes)))
          /\ shell_stream (Some cmd) s
             = (inr self_sock, after (request_of (blit "shell:" ++ cmdbytes))))
    /\ (exists e, exec (slit "") s = (inl (ValueError e), s))
    /\ (exists e, shell (slit "") s = (inl (ValueError e), s)).
Proof.
  intros [inc tr cl clk u] rest. cbn [closed incoming trace clock uninit].
  intros -> ->.
  assert (Hx : forall cmd cmdbytes, Utf8.encode cmd = Some cmdbytes ->
            exec_stream (Some cmd) (mkWorld (OKAY ++ rest) tr false clk u)
            = (inr self_sock,
               mkWorld rest
                 (tr ++ [EvSend (request_of (blit "exec:" ++ cmdbytes));
                         EvRecvExactly 4]) false clk u)).
  { intros cmd cmdbytes He. unfold exec_stream.
    apply (stream_ok (slit "exec:") cmd).
    rewrite encode_app, He. reflexivity. }
  assert (Hs : forall cmd cmdbytes, Utf8.encode cmd = Some cmdbytes ->
            shell_stream (Some cmd) (mkWorld (OKAY ++ rest) tr false clk u)
            = (inr self_sock,
               mkWorld rest
                 (tr ++ [EvSend (request_of (blit "shell:" ++ cmdbytes));
                         EvRecvExactly 4]) false clk u)).
  { intros cmd cmdbytes He. unfold shell_stream.
    apply (stream_ok (slit "shell:") cmd).
    rewrite encode_app, He. reflexivity. }
  repeat split.
  - apply (Hx (slit "") []). reflexivity.
  - apply (Hx (slit "") []). reflexivity.
  - apply (Hs (slit "") []). reflexivity.
  - apply (Hs (slit "") []). reflexivity.
  - apply Hx. assumption.
  - apply Hs. assumption.
  - eexists. reflexivity.
  - eexists. reflexivity.
Qed.

Lemma streaming_calls_accept_empty_command_witness :
  closed (fresh (blit "OKAYhello")) = false
  /\ incoming (fresh (blit "OKAYhello")) = OKAY ++ blit "hello"
  /\ exec_stream None (fresh (blit "OKAYhello"))
     = (inr self_sock,
        mkWorld (blit "hello") [EvSend (blit "0005exec:"); EvRecvExactly 4]
                false 0 (uninit (fresh []))).
Proof.
  split; [reflexivity|]. split; [reflexivity|].
  apply (streaming_calls_accept_empty_command
           (fresh (blit "OKAYhello")) (blit "hello"));
    reflexivity.
Defined.

(** ** The length prefix *)

Section HexDigits.
Variable v : Z.
Hypothesis Hv : 0 <= v < 16.

Ltac digit_cases :=
  assert (Hc : v = 0 \/ v = 1 \/ v = 2 \/ v = 3 \/ v = 4 \/ v = 5 \/ v = 6
               \/ v = 7 \/ v = 8 \/ v = 9 \/ v = 10 \/ v = 11 \/ v = 12
               \/ v = 13 \/ v = 14 \/ v = 15) by lia;
  repeat (destruct Hc as [-> | Hc]); try subst v.

Lemma hex_value_digit : Fmt.hex_value (Fmt.hex_digit v) = Some v.
Proof. digit_cases; reflexivity. Qed.

Lemma is_space_digit : Fmt.is_space (Fmt.hex_digit v) = false.
Proof. digit_cases; reflexivity. Qed.

Lemma is_underscore_digit : Fmt.is_underscore (Fmt.hex_digit v) = false.
Proof. digit_cases; reflexivity. Qed.

Lemma digit_not_plus : Byte.eqb (Fmt.hex_digit v) "+"%byte = false.
Proof. digit_cases; reflexivity. Qed.

Lemma digit_not_minus : Byte.eqb (Fmt.hex_digit v) "-"%byte = false.
Proof. digit_cases; reflexivity. Qed.

Lemma digit_not_x :
  Byte.eqb (Fmt.hex_digit v) "x"%byte
  || Byte.eqb (Fmt.hex_digit v) "X"%byte = false.
Proof. digit_cases; reflexivity. Qed.

Lemma scan_digits_digit (prev_us seen : bool) (acc : Z) (rest : bytes) :
  Fmt.scan_digits prev_us seen acc (Fmt.hex_digit v :: rest)
  = Fmt.scan_digits false true (acc * 16 + v) rest.
Proof.
  cbn [Fmt.scan_digits]. rewrite is_underscore_digit, hex_value_digit.
  reflexivity.
Qed.
End HexDigits.

(** Four digits are read as the number they write. *)
Lemma int16_four_digits (a b c d : Z) :
  0 <= a < 16 -> 0 <= b < 16 -> 0 <= c < 16 -> 0 <= d < 16 ->
  Fmt.int16 [Fmt.hex_digit a; Fmt.hex_digit b; Fmt.hex_digit c; Fmt.hex_digit d]
  = Some (((a * 16 + b) * 16 + c) * 16 + d).
Proof.
  intros Ha Hb Hc Hd. unfold Fmt.int16.
  cbn [Fmt.skip_spaces]. rewrite (is_space_digit a Ha).
  cbn [Fmt.strip_sign].
  rewrite (digit_not_plus a Ha), (digit_not_minus a Ha).
  cbn [Fmt.strip_0x]. rewrite (digit_not_x b Hb), andb_false_r.
  rewrite (is_underscore_digit a Ha).
  rewrite (scan_digits_digit a Ha), (scan_digits_digit b Hb),
          (scan_digits_digit c Hc), (scan_digits_digit d Hd).
  cbn [Fmt.scan_digits Fmt.skip_spaces]. f_equal. lia.
Qed.

Lemma hex_width_small (n : Z) : 0 <= n <= 65535 -> Fmt.hex_width n <= 4.
Proof.
  intros Hn. unfold Fmt.hex_width. destruct (Z.eqb_spec n 0); [lia|].
  assert (Z.log2 n < 16) by (apply Z.log2_lt_pow2; lia).
  assert (Z.log2 n / 4 < 4) by (apply Z.div_lt_upper_bound; lia).
  lia.
Qed.

Lemma format_04X_small (n : Z) :
  0 <= n <= 65535 ->
  Fmt.format_04X n
  = [Fmt.hex_digit ((n / 4096) mod 16); Fmt.hex_digit ((n / 256) mod 16);
     Fmt.hex_digit ((n / 16) mod 16); Fmt.hex_digit (n mod 16)].
Proof.
  intros Hn. unfold Fmt.format_04X, Fmt.sign_of.
  destruct (Z.ltb_spec n 0); [lia|].
  rewrite Z.abs_eq by lia.
  replace (Z.max (4 - len (@nil byte)) (Fmt.hex_width n)) with 4
    by (pose proof (hex_width_small n Hn); unfold len; simpl; lia).
  change (Z.to_nat 4) with 4%nat. cbn [seq rev app map].
  change (16 ^ Z.of_nat 3) with 4096. change (16 ^ Z.of_nat 2) with 256.
  change (16 ^ Z.of_nat 1) with 16. change (16 ^ Z.of_nat 0) with 1.
  rewrite Z.div_1_r. reflexivity.
Qed.

Lemma format_04X_int16 (n : Z) :
  0 <= n <= 65535 ->
  len (Fmt.format_04X n) = 4 /\ Fmt.int16 (Fmt.format_04X n) = Some n.
Proof.
  intros Hn. rewrite (format_04X_small n Hn). split; [reflexivity|].
  rewrite int16_four_digits by (apply Z.mod_pos_bound; lia).
  f_equal.
  pose proof (Z.div_mod n 16 ltac:(lia)).
  pose proof (Z.div_mod (n / 16) 16 ltac:(lia)).
  pose proof (Z.div_mod (n / 16 / 16) 16 ltac:(lia)).
  rewrite !Z.div_div in * by lia.
  change (16 * 16) with 256 in *. change (256 * 16) with 4096 in *.
  assert (n / 4096 < 16) by (apply Z.div_lt_upper_bound; lia).
  assert (0 <= n / 4096) by (apply Z.div_pos; lia).
  rewrite (Z.mod_small (n / 4096) 16) in * by lia.
  lia.
Qed.

Lemma slice_prefix {A : Type} (a b : list A) (n : Z) :
  len a = n -> slice (a ++ b) 0 n = a.
Proof.
  intros Hn. unfold slice, slice_index. rewrite len_app.
  pose proof (len_nonneg a). pose proof (len_nonneg b).
  destruct (Z.ltb_spec 0 0); [lia|]. destruct (Z.ltb_spec n 0); [lia|].
  rewrite Z.min_l by lia. rewrite Z.min_l by lia.
  rewrite Z.sub_0_r. change (Z.to_nat 0) with 0%nat. rewrite skipn_O.
  now apply firstn_len_app.
Qed.

Lemma encode_ascii (cmd : str) :
  Forall (fun c => (c < 128)%N) cmd ->
  Utf8.encode cmd = Some (map byte_of cmd).
Proof.
  induction 1 as [|c cmd Hc _ IH]; [reflexivity|].
  cbn [Utf8.encode map]. rewrite IH. unfold Utf8.encode_cp.
  destruct (N.ltb_spec c 128); [reflexivity | lia].
Qed.

(** C6: for a command whose encoded bytes number at most [0xFFFF], the
    request that [service] writes is the four-character length prefix
    followed by those bytes; the prefix is read back as that number, and a
    reader that decodes the request the way [read_response] does gets the
    bytes of the command and stops right behind them.  For an ASCII command
    the number of bytes is the number of characters. *)
Theorem length_prefix_roundtrip :
  forall (cmd : str) (cmdbytes : bytes) (s peer : world) (rest tail : bytes),
    Utf8.encode cmd = Some cmdbytes ->
    0 <= len cmdbytes <= 65535 ->
    closed s = false -> incoming s = OKAY ++ rest ->
    closed peer = false ->
    incoming peer = request_of cmdbytes ++ tail ->
    trace (snd (service cmd s))
    = trace s ++ [EvSend (request_of cmdbytes); EvRecvExactly 4]
    /\ request_of cmdbytes = slice (request_of cmdbytes) 0 4 ++ cmdbytes
    /\ Fmt.int16 (slice (request_of cmdbytes) 0 4) = Some (len cmdbytes)
    /\ fst (read_response peer) = inr cmdbytes
    /\ incoming (snd (read_response peer)) = tail
    /\ (Forall (fun c => (c < 128)%N) cmd -> len cmdbytes = len cmd).
Proof.
  intros cmd cmdbytes [inc tr cl clk u] [pinc ptr pcl pclk pu] rest tail.
  cbn [closed incoming trace]. intros He Hlen -> -> -> ->.
  destruct (format_04X_int16 (len cmdbytes) Hlen) as [H4 Hint].
  assert (Hs : slice (request_of cmdbytes) 0 4
               = Fmt.format_04X (len cmdbytes)).
  { unfold request_of. now apply slice_prefix. }
  rewrite Hs. repeat split.
  - rewrite (service_ok cmd cmdbytes rest tr clk u He). reflexivity.
  - exact Hint.
  - unfold read_response, request_of. rewrite <- app_assoc.
    rewrite read_hexlen_ok by assumption. reflexivity.
  - unfold read_response, request_of. rewrite <- app_assoc.
    rewrite read_hexlen_ok by assumption. reflexivity.
  - intros Hascii. rewrite (encode_ascii cmd Hascii) in He.
    injection He as <-. unfold len. now rewrite length_map.
Qed.

Lemma length_prefix_roundtrip_witness :
  Utf8.encode (slit "host:devices") = Some (blit "host:devices")
  /\ 0 <= len (blit "host:devices") <= 65535
  /\ trace (snd (service (slit "host:devices") (fresh (blit "OKAY0000"))))
     = [EvSend (blit "000Chost:devices"); EvRecvExactly 4]
  /\ Fmt.int16 (slice (blit "000Chost:devices") 0 4) = Some 12
  /\ fst (read_response (fresh (blit "000Chost:devicesNEXT")))
     = inr (blit "host:devices")
  /\ incoming (snd (read_response (fresh (blit "000Chost:devicesNEXT"))))
     = blit "NEXT".
Proof.
  split; [reflexivity|]. split; [vm_compute; split; discriminate|].
  destruct (length_prefix_roundtrip
              (slit "host:devices") (blit "host:devices")
              (fresh (blit "OKAY0000")) (fresh (blit "000Chost:devicesNEXT"))
              (blit "0000") (blit "NEXT"))
    as (H1 & _ & H3 & H4 & H5 & _);
    try reflexivity.
  - vm_compute; split; discriminate.
  - repeat split; assumption.
Defined.

(** ** The device list *)

(** A field of a device row: no tab and no line boundary in it. *)
Definition plain (f : str) : bool :=
  forallb (fun c => negb (c =? Text.tab)%N && negb (Text.is_linebreak c)) f.

Definition row_text (r : str * str) : str :=
  fst r ++ [Text.tab] ++ snd r ++ [10%N].

(** The text of a device list: one line per row, serial, tab, state. *)
Definition table_text (rows : list (str * str)) : str :=
  List.concat (map row_text rows).

Definition plain_row (r : str * str) : Prop :=
  plain (fst r) = true /\ plain (snd r) = true.

Lemma plain_cons (c : N) (f : str) :
  plain (c :: f) = true ->
  (c =? Text.tab)%N = false /\ Text.is_linebreak c = false /\ plain f = true.
Proof.
  unfold plain. cbn [forallb]. intros H.
  apply andb_true_iff in H as [H1 H2].
  apply andb_true_iff in H1 as [Ht Hl].
  apply negb_true_iff in Ht, Hl. auto.
Qed.

Lemma splitlines_line (line rest : str) :
  forallb (fun c => negb (Text.is_linebreak c)) line = true ->
  Text.splitlines (line ++ 10%N :: rest) = line :: Text.splitlines rest.
Proof.
  induction line as [|c line IH]; intros H.
  - reflexivity.
  - cbn [forallb] in H. apply andb_true_iff in H as [Hc Hl].
    apply negb_true_iff in Hc.
    change ((c :: line) ++ 10%N :: rest) with (c :: (line ++ 10%N :: rest)).
    cbn [Text.splitlines]. rewrite Hc, (IH Hl). reflexivity.
Qed.

Lemma split_field (sep : N) (f rest : str) :
  forallb (fun c => negb (c =? sep)%N) f = true ->
  Text.split sep (f ++ sep :: rest) = f :: Text.split sep rest.
Proof.
  induction f as [|c f IH]; intros H.
  - cbn [app Text.split]. now rewrite N.eqb_refl.
  - cbn [forallb] in H. apply andb_true_iff in H as [Hc Hf].
    apply negb_true_iff in Hc.
    change ((c :: f) ++ sep :: rest) with (c :: (f ++ sep :: rest)).
    cbn [Text.split]. rewrite Hc, (IH Hf). reflexivity.
Qed.

Lemma split_last (sep : N) (f : str) :
  forallb (fun c => negb (c =? sep)%N) f = true ->
  Text.split sep f = [f].
Proof.
  induction f as [|c f IH]; intros H; [reflexivity|].
  cbn [forallb] in H. apply andb_true_iff in H as [Hc Hf].
  apply negb_true_iff in Hc.
  cbn [Text.split]. rewrite Hc, (IH Hf). reflexivity.
Qed.

Lemma plain_no_tab (f : str) :
  plain f = true -> forallb (fun c => negb (c =? Text.tab)%N) f = true.
Proof.
  induction f as [|c f IH]; intros H; [reflexivity|].
  apply plain_cons in H as (Ht & _ & Hf).
  cbn [forallb]. rewrite Ht, (IH Hf). reflexivity.
Qed.

Lemma plain_no_linebreak (f : str) :
  plain f = true -> forallb (fun c => negb (Text.is_linebreak c)) f = true.
Proof.
  induction f as [|c f IH]; intros H; [reflexivity|].
  apply plain_cons in H as (_ & Hl & Hf).
  cbn [forallb]. rewrite Hl, (IH Hf). reflexivity.
Qed.

Lemma parse_table (rows : list (str * str)) :
  Forall plain_row rows ->
  map (fun line => Text.split Text.tab line)
      (Text.splitlines (table_text rows))
  = map (fun r => [fst r; snd r]) rows.
Proof.
  induction 1 as [|[a b] rows [Ha Hb] _ IH]; [reflexivity|].
  cbn [fst snd] in Ha, Hb.
  unfold table_text. cbn [map List.concat]. unfold row_text at 1. cbn [fst snd].
  replace ((a ++ [Text.tab] ++ b ++ [10%N]) ++ List.concat (map row_text rows))
    with ((a ++ Text.tab :: b) ++ 10%N :: table_text rows)
    by (unfold table_text; rewrite <- !app_assoc; reflexivity).
  rewrite splitlines_line.
  - cbn [map]. rewrite IH. f_equal.
    rewrite split_field by now apply plain_no_tab.
    rewrite split_last by now apply plain_no_tab. reflexivity.
  - rewrite forallb_app. rewrite (plain_no_linebreak a Ha).
    cbn [forallb]. rewrite (plain_no_linebreak b Hb). reflexivity.
Qed.

Lemma devices_run (lenfield raw rest : bytes) tr clk u :
  len lenfield = 4 -> Fmt.int16 lenfield = Some (len raw) ->
  devices (mkWorld (OKAY ++ lenfield ++ raw ++ rest) tr false clk u)
  = (match Utf8.decode Utf8.strict raw with
     | Some resp =>
         inr (map (fun line => Text.split Text.tab line)
                  (Text.splitlines resp))
     | None => inl UnicodeDecodeError
     end,
     mkWorld rest
       (tr ++ [EvSend (blit "000Chost:devices");
               EvRecvExactly 4; EvRecvExactly 4]
           ++ (if len raw =? 0 then [] else [EvRecvExactly (len raw)]))
       false clk u).
Proof.
  intros Hl Hint. unfold devices, bind.
  rewrite (service_ok (slit "host:devices") (blit "host:devices"))
    by reflexivity.
  unfold read_response. rewrite read_hexlen_ok by assumption.
  unfold bytes_decode, lift_opt.
  rewrite <- app_assoc.
  destruct (Utf8.decode Utf8.strict raw); reflexivity.
Qed.

(** The reply of the spec's example: two rows, each ended by a newline. *)
Definition two_devices : bytes :=
  blit "emulator-5554" ++ [x09] ++ blit "device" ++ [x0a]
  ++ blit "0123ABC" ++ [x09] ++ blit "unauthorized" ++ [x0a].

(** C7: on an [OKAY] reply followed by a length-prefixed payload, [devices]
    decodes the payload as text, splits the text into lines and each line at
    its tabs.  When the text is a list of rows [serial TAB state NEWLINE], the
    result is the list of the pairs (serial, state), in order, each as the
    two-element tuple of its fields.  The payload of the example gives the
    two rows of the example, and an empty payload gives the empty list. *)
Theorem devices_parses_rows :
  forall (s : world) (lenfield raw rest : bytes),
    closed s = false ->
    len lenfield = 4 -> Fmt.int16 lenfield = Some (len raw) ->
    incoming s = OKAY ++ lenfield ++ raw ++ rest ->
    (forall resp : str,
        Utf8.decode Utf8.strict raw = Some resp ->
        fst (devices s)
        = inr (map (fun line => Text.split Text.tab line)
                   (Text.splitlines resp)))
    /\ (forall rows : list (str * str),
          Utf8.decode Utf8.strict raw = Some (table_text rows) ->
          Forall plain_row rows ->
          fst (devices s) = inr (map (fun r => [fst r; snd r]) rows))
    /\ (raw = two_devices ->
        fst (devices s)
        = inr [[slit "emulator-5554"; slit "device"];
               [slit "0123ABC"; slit "unauthorized"]])
    /\ (raw = [] -> fst (devices s) = inr []).
Proof.
  intros [inc tr cl clk u] lenfield raw rest.
  cbn [closed incoming]. intros -> Hl Hint ->.
  rewrite (devices_run lenfield raw rest tr clk u Hl Hint). cbn [fst].
  repeat split.
  - intros resp ->. reflexivity.
  - intros rows -> Hrows. now rewrite parse_table.
  - intros ->. reflexivity.
  - intros ->. reflexivity.
Qed.

Lemma devices_parses_rows_witness :
  closed (fresh (OKAY ++ blit "002A" ++ two_devices)) = false
  /\ Fmt.int16 (blit "002A") = Some (len two_devices)
  /\ fst (devices (fresh (OKAY ++ blit "002A" ++ two_devices)))
     = inr [[slit "emulator-5554"; slit "device"];
            [slit "0123ABC"; slit "unauthorized"]]
  /\ fst (devices (fresh (OKAY ++ blit "0000"))) = inr [].
Proof.
  split; [reflexivity|]. split; [reflexivity|]. split.
  - apply (devices_parses_rows
             (fresh (OKAY ++ blit "002A" ++ two_devices))
             (blit "002A") two_devices []); reflexivity.
  - apply (devices_parses_rows
             (fresh (OKAY ++ blit "0000")) (blit "0000") [] []);
      reflexivity.
Defined.

(** ** Connecting and disconnecting *)

(** [p] occurs in [s]. *)
Definition substring (p s : str) : Prop :=
  exists pre post, s = pre ++ p ++ post.

Lemma starts_with_spec (p s : str) :
  Text.starts_with p s = true <-> exists post, s = p ++ post.
Proof.
  revert s. induction p as [|a p IH]; intros s.
  - split; [exists s; reflexivity|]. destruct s; reflexivity.
  - destruct s as [|b s]; cbn [Text.starts_with].
    + split; [discriminate | intros [post H]; discriminate].
    + rewrite andb_true_iff, N.eqb_eq, IH. split.
      * intros [-> [post ->]]. exists post. reflexivity.
      * intros [post H]. injection H as -> ->. split; [reflexivity|].
        exists post. reflexivity.
Qed.

Lemma contains_spec (p s : str) :
  Text.contains p s = true <-> substring p s.
Proof.
  unfold substring. induction s as [|b s IH]; cbn [Text.contains].
  - rewrite orb_false_r, starts_with_spec. split.
    + intros [post H]. exists [], post. exact H.
    + intros [pre [post H]]. destruct pre; [exists post; exact H|].
      discriminate.
  - rewrite orb_true_iff, starts_with_spec, IH. split.
    + intros [[post H] | [pre [post H]]].
      * exists [], post. exact H.
      * exists (b :: pre), post. rewrite H. reflexivity.
    + intros [pre [post H]]. destruct pre as [|c pre].
      * left. exists post. exact H.
      * right. injection H as _ H. exists pre, post. exact H.
Qed.

(** What [connect] and [disconnect] both do behind their service request. *)
Lemma registry_run (prefix device : str) (req lenfield raw rest : bytes)
      (resp : str) tr clk u :
  Utf8.encode (prefix ++ device) = Some req ->
  len lenfield = 4 -> Fmt.int16 lenfield = Some (len raw) ->
  Utf8.decode Utf8.ignore raw = Some resp ->
  (service (prefix ++ device) ;;;
   raw <- read_response ;;
   resp <- bytes_decode Utf8.ignore raw ;;
   if Text.contains (slit "unable") resp || Text.contains (slit "cannot") resp
   then raise (RuntimeError (ArgStr resp))
   else ret tt)
    (mkWorld (OKAY ++ lenfield ++ raw ++ rest) tr false clk u)
  = ((if Text.contains (slit "unable") resp
         || Text.contains (slit "cannot") resp
      then inl (RuntimeError (ArgStr resp)) else inr tt),
     mkWorld rest
       (tr ++ [EvSend (request_of req); EvRecvExactly 4; EvRecvExactly 4]
           ++ (if len raw =? 0 then [] else [EvRecvExactly (len raw)]))
       false clk u).
Proof.
  intros He Hl Hint Hd. unfold bind.
  rewrite (service_ok _ _ _ _ _ _ He).
  unfold read_response. rewrite read_hexlen_ok by assumption.
  unfold bytes_decode. rewrite Hd. unfold lift_opt, ret, raise.
  rewrite <- app_assoc.
  destruct (Text.contains (slit "unable") resp
            || Text.contains (slit "cannot") resp); reflexivity.
Qed.

(** C8: after an [OKAY] status and a length-prefixed payload, [connect] and
    [disconnect] raise [RuntimeError] (the spec's ProtocolError), carrying
    the decoded text, when that text contains [unable] or [cannot], and
    return normally when it contains neither.  The payload
    [connected to ok:5555] is accepted and the payload
    [unable to connect to x:5555] raises. *)
Theorem connect_fails_on_unable_or_cannot :
  forall (s : world) (device : str) (devbytes lenfield raw rest : bytes)
         (resp : str),
    closed s = false ->
    Utf8.encode device = Some devbytes ->
    len lenfield = 4 -> Fmt.int16 lenfield = Some (len raw) ->
    incoming s = OKAY ++ lenfield ++ raw ++ rest ->
    Utf8.decode Utf8.ignore raw = Some resp ->
    (substring (slit "unable") resp \/ substring (slit "cannot") resp ->
     fst (connect device s) = inl (RuntimeError (ArgStr resp))
     /\ fst (disconnect device s) = inl (RuntimeError (ArgStr resp)))
    /\ (~ (substring (slit "unable") resp \/ substring (slit "cannot") resp) ->
        fst (connect device s) = inr tt
        /\ fst (disconnect device s) = inr tt)
    /\ (raw = blit "connected to ok:5555" -> fst (connect device s) = inr tt)
    /\ (raw = blit "unable to connect to x:5555" ->
        fst (connect device s)
        = inl (RuntimeError (ArgStr (slit "unable to connect to x:5555")))).
Proof.
  intros [inc tr cl clk u] device devbytes lenfield raw rest resp.
  cbn [closed incoming]. intros -> He Hl Hint -> Hd.
  assert (Hc : Utf8.encode (slit "host:connect:" ++ device)
               = Some (blit "host:connect:" ++ devbytes))
    by (rewrite encode_app, He; reflexivity).
  assert (Hdis : Utf8.encode (slit "host:disconnect:" ++ device)
                 = Some (blit "host:disconnect:" ++ devbytes))
    by (rewrite encode_app, He; reflexivity).
  unfold connect, disconnect.
  rewrite (registry_run _ _ _ _ _ _ _ tr clk u Hc Hl Hint Hd).
  rewrite (registry_run _ _ _ _ _ _ _ tr clk u Hdis Hl Hint Hd).
  cbn [fst].
  assert (Hiff : Text.contains (slit "unable") resp
                 || Text.contains (slit "cannot") resp = true
                 <-> substring (slit "unable") resp
                     \/ substring (slit "cannot") resp).
  { rewrite orb_true_iff, !contains_spec. reflexivity. }
  destruct (Text.contains (slit "unable") resp
            || Text.contains (slit "cannot") resp) eqn:E.
  - split; [intros _; split; reflexivity|].
    split; [intros H; exfalso; apply H, Hiff; reflexivity|].
    split; intros ->; vm_compute in Hd; injection Hd as <-.
    + discriminate E.
    + reflexivity.
  - split; [intros H; apply Hiff in H; discriminate H|].
    split; [intros _; split; reflexivity|].
    split; intros ->; vm_compute in Hd; injection Hd as <-.
    + reflexivity.
    + discriminate E.
Qed.

Lemma connect_fails_on_unable_or_cannot_witness :
  (Utf8.decode Utf8.ignore (blit "unable to connect to x:5555")
   = Some (slit "unable to connect to x:5555")
   /\ fst (connect (slit "x:5555")
             (fresh (blit "OKAY001Bunable to connect to x:5555")))
      = inl (RuntimeError (ArgStr (slit "unable to connect to x:5555"))))
  /\ (Utf8.decode Utf8.ignore (blit "connected to ok:5555")
      = Some (slit "connected to ok:5555")
      /\ fst (connect (slit "ok:5555")
                (fresh (blit "OKAY0014connected to ok:5555")))
         = inr tt).
Proof.
  split; (split; [reflexivity|]).
  - apply (connect_fails_on_unable_or_cannot
             (fresh (blit "OKAY001Bunable to connect to x:5555"))
             (slit "x:5555") (blit "x:5555") (blit "001B")
             (blit "unable to connect to x:5555") []
             (slit "unable to connect to x:5555"));
      reflexivity.
  - apply (connect_fails_on_unable_or_cannot
             (fresh (blit "OKAY0014connected to ok:5555"))
             (slit "ok:5555") (blit "ok:5555") (blit "0014")
             (blit "connected to ok:5555") []
             (slit "connected to ok:5555"));
      reflexivity.
Defined.

(** ** Slices and sections *)

Lemma firstn_add {A : Type} (a b : nat) (l : list A) :
  firstn (a + b) l = firstn a l ++ firstn b (skipn a l).
Proof.
  revert l. induction a as [|a IH]; intros l; [reflexivity|].
  destruct l as [|x l]; cbn [Nat.add firstn skipn app].
  - now rewrite firstn_nil.
  - now rewrite IH.
Qed.

(** With bounds in order and not negative, a slice is a [firstn] of a
    [skipn]; the clamping to the length is then done by these two. *)
Lemma slice_firstn_skipn {A : Type} (l : list A) (a b : Z) :
  0 <= a <= b ->
  slice l a b = firstn (Z.to_nat (b - a)) (skipn (Z.to_nat a) l).
Proof.
  intros Hab. unfold slice, slice_index.
  pose proof (len_nonneg l) as Hl.
  destruct (Z.ltb_spec a 0); [lia|]. destruct (Z.ltb_spec b 0); [lia|].
  destruct (Z.le_gt_cases a (len l)) as [Ha|Ha].
  - rewrite (Z.min_l a) by lia.
    destruct (Z.le_gt_cases b (len l)) as [Hb|Hb].
    + now rewrite Z.min_l by lia.
    + rewrite Z.min_r by lia.
      rewrite !firstn_all2; [reflexivity| |];
        rewrite length_skipn; unfold len in *; lia.
  - rewrite !Z.min_r by lia. rewrite Z.sub_diag. cbn [Z.to_nat firstn].
    rewrite (skipn_all2 l) by (unfold len in *; lia).
    now rewrite firstn_nil.
Qed.

Lemma len_slice {A : Type} (l : list A) (a b : Z) :
  0 <= a <= b ->
  len (slice l a b) = Z.min b (len l) - Z.min a (len l).
Proof.
  intros Hab. rewrite slice_firstn_skipn by assumption.
  unfold len. rewrite length_firstn, length_skipn. lia.
Qed.

Lemma last_as_nth {A : Type} (l : list A) (d : A) :
  last l d = nth (List.length l - 1) l d.
Proof.
  induction l as [|x l IH]; [reflexivity|].
  destruct l as [|y l]; [reflexivity|].
  change (last (x :: y :: l) d) with (last (y :: l) d). rewrite IH.
  cbn [List.length nth Nat.sub]. now rewrite Nat.sub_0_r.
Qed.

Section Sections.
Context {A : Type}.
Variable K : Z.
Hypothesis HK : 0 < K.
Variable ary : list A.

(** The number of cut points that [arange K (len ary) K] gives. *)
Definition cuts : nat := Z.to_nat (- ((K - len ary) / K)).

Lemma cuts_bounds :
  Z.of_nat cuts * K <= len ary <= (Z.of_nat cuts + 1) * K
  /\ (ary <> [] -> Z.of_nat cuts * K < len ary).
Proof.
  unfold cuts. pose proof (len_nonneg ary) as Hn.
  assert (Hne : ary <> [] -> 0 < len ary).
  { intros H. destruct (Z.eq_dec (len ary) 0) as [E|E]; [|lia].
    apply len_nil_iff in E. contradiction. }
  pose proof (Z.div_mod (K - len ary) K ltac:(lia)) as Hdm.
  pose proof (Z.mod_pos_bound (K - len ary) K HK) as Hm.
  set (q := (K - len ary) / K) in *.
  destruct (Z.le_gt_cases q 0) as [Hq|Hq].
  - rewrite Z2Nat.id by lia. split; [nia|].
    intros Hary. specialize (Hne Hary). nia.
  - replace (Z.to_nat (- q)) with 0%nat by lia.
    assert (Hq1 : q = 1) by nia.
    split; [nia|]. intros Hary. specialize (Hne Hary). nia.
Qed.

Lemma arange_length : List.length (Np.arange K (len ary) K) = cuts.
Proof. unfold Np.arange, cuts. now rewrite length_map, length_seq. Qed.

Lemma arange_nth (j : nat) :
  (j < cuts)%nat ->
  nth j (Np.arange K (len ary) K) 0 = (Z.of_nat j + 1) * K.
Proof.
  intros Hj. unfold Np.arange. fold cuts.
  rewrite (nth_indep _ 0 (K + Z.of_nat 0 * K))
    by now rewrite length_map, length_seq.
  rewrite (map_nth (fun i => K + Z.of_nat i * K)).
  rewrite seq_nth by assumption. cbn [Nat.add]. lia.
Qed.

(** Cut point [i] is [i * K], and the last one is the size. *)
Lemma div_points_nth (i : nat) :
  (i <= cuts)%nat ->
  nth i ([0] ++ Np.arange K (len ary) K ++ [len ary]) 0 = Z.of_nat i * K.
Proof.
  intros Hi. destruct i as [|j]; [reflexivity|].
  cbn [app nth]. rewrite app_nth1 by (rewrite arange_length; lia).
  rewrite arange_nth by lia. lia.
Qed.

Lemma div_points_last :
  nth (S cuts) ([0] ++ Np.arange K (len ary) K ++ [len ary]) 0 = len ary.
Proof.
  cbn [app nth]. rewrite app_nth2 by (rewrite arange_length; lia).
  rewrite arange_length, Nat.sub_diag. reflexivity.
Qed.

(** The sections of [array_split] are the windows of width [K]. *)
Lemma array_split_windows :
  Np.array_split ary (Np.arange K (len ary) K)
  = map (fun i => slice ary (Z.of_nat i * K) ((Z.of_nat i + 1) * K))
        (seq 0 (cuts + 1)).
Proof.
  unfold Np.array_split. rewrite arange_length.
  apply map_ext_in. intros i Hi. apply in_seq in Hi.
  rewrite div_points_nth by lia.
  destruct (Nat.eq_dec i cuts) as [->|Hne].
  - rewrite div_points_last.
    pose proof cuts_bounds as [[Hlo Hhi] _].
    rewrite !slice_firstn_skipn by lia.
    rewrite !firstn_all2; [reflexivity| |];
      rewrite length_skipn; unfold len in *; lia.
  - rewrite div_points_nth by lia. f_equal. lia.
Qed.

Lemma windows_concat (k : nat) :
  List.concat
    (map (fun i => slice ary (Z.of_nat i * K) ((Z.of_nat i + 1) * K))
         (seq 0 k))
  = firstn (Z.to_nat (Z.of_nat k * K)) ary.
Proof.
  induction k as [|k IH]; [reflexivity|].
  rewrite seq_S, map_app, concat_app, IH. cbn [Nat.add map List.concat].
  rewrite app_nil_r, slice_firstn_skipn by lia.
  replace (Z.to_nat (Z.of_nat (S k) * K))
    with (Z.to_nat (Z.of_nat k * K)
          + Z.to_nat ((Z.of_nat k + 1) * K - Z.of_nat k * K))%nat by lia.
  now rewrite firstn_add.
Qed.

Lemma array_split_concat :
  List.concat (Np.array_split ary (Np.arange K (len ary) K)) = ary.
Proof.
  rewrite array_split_windows, windows_concat.
  pose proof cuts_bounds as [[_ Hhi] _].
  apply firstn_all2. unfold len in *. lia.
Qed.

Lemma array_split_length :
  List.length (Np.array_split ary (Np.arange K (len ary) K))
  = (cuts + 1)%nat.
Proof. rewrite array_split_windows. now rewrite length_map, length_seq. Qed.

Lemma array_split_nth (i : nat) :
  (i < cuts + 1)%nat ->
  nth i (Np.array_split ary (Np.arange K (len ary) K)) []
  = slice ary (Z.of_nat i * K) ((Z.of_nat i + 1) * K).
Proof.
  intros Hi. rewrite array_split_windows.
  rewrite (nth_indep _ []
             (slice ary (Z.of_nat 0 * K) ((Z.of_nat 0 + 1) * K)))
    by now rewrite length_map, length_seq.
  rewrite (map_nth
             (fun i => slice ary (Z.of_nat i * K) ((Z.of_nat i + 1) * K))).
  now rewrite seq_nth.
Qed.

Lemma array_split_bounded :
  Forall (fun c => len c <= K)
         (Np.array_split ary (Np.arange K (len ary) K)).
Proof.
  rewrite array_split_windows. apply Forall_forall. intros c Hc.
  apply in_map_iff in Hc as (i & <- & _).
  rewrite len_slice by lia. lia.
Qed.

(** Every section but the last is full. *)
Lemma array_split_full (i : nat) :
  (i < cuts)%nat ->
  len (nth i (Np.array_split ary (Np.arange K (len ary) K)) []) = K.
Proof.
  intros Hi. rewrite array_split_nth by lia. rewrite len_slice by lia.
  pose proof cuts_bounds as [[Hlo _] _]. nia.
Qed.

(** The last section holds what is left. *)
Lemma array_split_last :
  len (nth cuts (Np.array_split ary (Np.arange K (len ary) K)) [])
  = len ary - Z.of_nat cuts * K.
Proof.
  rewrite array_split_nth by lia. rewrite len_slice by lia.
  pose proof cuts_bounds as [[Hlo Hhi] _]. lia.
Qed.
End Sections.

(** ** The staging buffer of [push] *)

(** The four bytes of [n], least significant first. *)
Definition le32 (n : Z) : bytes :=
  [byte_of (Z.to_N (n mod 256));
   byte_of (Z.to_N ((n / 256) mod 256));
   byte_of (Z.to_N ((n / 65536) mod 256));
   byte_of (Z.to_N ((n / 16777216) mod 256))].

(** The number that four bytes hold, least significant first. *)
Definition le32_value (b : bytes) : Z :=
  fold_right (fun x acc => Z.of_N (Byte.to_N x) + 256 * acc) 0 b.

(** A [DATA] sub-packet: the tag, the length of the payload, the payload. *)
Definition data_packet (c : bytes) : bytes :=
  blit "DATA" ++ le32 (len c) ++ c.

Lemma struct_pack_I_ok (n : Z) :
  0 <= n < 4294967296 -> Fmt.struct_pack_I n = Some (le32 n).
Proof.
  intros Hn. unfold Fmt.struct_pack_I.
  destruct (Z.leb_spec 0 n); [|lia].
  destruct (Z.ltb_spec n 4294967296); [|lia]. reflexivity.
Qed.

Lemma len_le32 (n : Z) : len (le32 n) = 4.
Proof. reflexivity. Qed.

Lemma to_N_byte_of (x : N) : (x < 256)%N -> Byte.to_N (byte_of x) = x.
Proof.
  intros Hx. unfold byte_of.
  pose proof (Byte.to_of_N_option_map x) as H.
  destruct (N.leb_spec x 255); [|lia].
  destruct (Byte.of_N x); [|discriminate].
  now injection H.
Qed.

Lemma le32_value_le32 (n : Z) :
  0 <= n < 4294967296 -> le32_value (le32 n) = n.
Proof.
  intros Hn. unfold le32, le32_value. cbn [fold_right].
  rewrite !to_N_byte_of
    by (apply N2Z.inj_lt; rewrite Z2N.id;
        [apply Z.mod_pos_bound | apply Z.mod_pos_bound]; lia).
  rewrite !Z2N.id by (apply Z.mod_pos_bound; lia).
  pose proof (Z.div_mod n 256 ltac:(lia)).
  pose proof (Z.div_mod (n / 256) 256 ltac:(lia)).
  pose proof (Z.div_mod (n / 256 / 256) 256 ltac:(lia)).
  rewrite !Z.div_div in * by lia.
  change (256 * 256) with 65536 in *.
  change (65536 * 256) with 16777216 in *.
  assert (n / 16777216 < 256) by (apply Z.div_lt_upper_bound; lia).
  assert (0 <= n / 16777216) by (apply Z.div_pos; lia).
  rewrite (Z.mod_small (n / 16777216) 256) by lia.
  lia.
Qed.

(** Writing [v] over the part [old] of a buffer. *)
Lemma setslice_within (pre old post v : bytes) (st en : Z) :
  len pre = st -> st + len v = en -> len old = len v ->
  Np.setslice (pre ++ old ++ post) st en v = Some (pre ++ v ++ post).
Proof.
  intros Hst Hen Hold. unfold Np.setslice, slice_index.
  rewrite !len_app.
  pose proof (len_nonneg pre). pose proof (len_nonneg old).
  pose proof (len_nonneg post). pose proof (len_nonneg v).
  destruct (Z.ltb_spec st 0); [lia|]. destruct (Z.ltb_spec en 0); [lia|].
  rewrite (Z.min_l st) by lia. rewrite (Z.min_l en) by lia.
  rewrite Z.max_r by lia.
  destruct (Z.eqb_spec (len v) (en - st)); [|lia].
  rewrite firstn_len_app by assumption.
  rewrite (app_assoc pre old post).
  rewrite skipn_len_app by (rewrite len_app; lia).
  reflexivity.
Qed.

(** Writing [v] at the front of the part [body] of a buffer. *)
Lemma setslice_over (pre body v : bytes) (st en : Z) :
  len pre = st -> st + len v = en -> len v <= len body ->
  Np.setslice (pre ++ body) st en v
  = Some (pre ++ v ++ skipn (Z.to_nat (len v)) body).
Proof.
  intros Hst Hen Hv.
  rewrite <- (firstn_skipn (Z.to_nat (len v)) body) at 1.
  apply setslice_within; try assumption.
  unfold len in *. rewrite length_firstn. lia.
Qed.

(** Writing [v] at the front of a buffer. *)
Lemma setslice_front (body v : bytes) (en : Z) :
  len v = en -> len v <= len body ->
  Np.setslice body 0 en v = Some (v ++ skipn (Z.to_nat (len v)) body).
Proof.
  intros Hen Hv. apply (setslice_over [] body v 0 en); trivial.
Qed.

Lemma push_loop_run (sections : list bytes) :
  Forall (fun c => len c <= 65536) sections ->
  forall (field body inc : bytes) tr clk u,
    len field = 4 -> len body = 65536 ->
    exists field' body',
      push_loop (blit "DATA" ++ field ++ body) sections
                (mkWorld inc tr false clk u)
      = (inr (blit "DATA" ++ field' ++ body'),
         mkWorld inc
           (tr ++ map (fun c => EvSendAll (data_packet c)) sections)
           false clk u)
      /\ len field' = 4 /\ len body' = 65536.
Proof.
  induction 1 as [|arr rest Harr _ IH]; intros field body inc tr clk u Hf Hb.
  - exists field, body. cbn [push_loop map]. rewrite app_nil_r.
    repeat split; assumption.
  - pose proof (len_nonneg arr) as Hnn.
    cbn [push_loop]. unfold bind, lift_opt, ret.
    rewrite struct_pack_I_ok by lia. cbv beta iota.
    rewrite (setslice_within (blit "DATA") field body (le32 (len arr)) 4 8)
      by (try reflexivity; assumption).
    cbv beta iota.
    rewrite (app_assoc (blit "DATA") (le32 (len arr))).
    rewrite (setslice_over (blit "DATA" ++ le32 (len arr)) body arr
               8 (8 + len arr))
      by (try reflexivity; lia).
    cbv beta iota.
    rewrite sock_sendall_ok. cbv beta iota.
    rewrite (app_assoc (blit "DATA" ++ le32 (len arr)) arr).
    rewrite slice_prefix
      by (rewrite !len_app; change (len (blit "DATA")) with 4;
          rewrite len_le32; lia).
    rewrite <- (app_assoc (blit "DATA" ++ le32 (len arr)) arr).
    rewrite <- (app_assoc (blit "DATA") (le32 (len arr))).
    destruct (IH (le32 (len arr))
                 (arr ++ skipn (Z.to_nat (len arr)) body) inc
                 (tr ++ [EvSendAll
                           ((blit "DATA" ++ le32 (len arr)) ++ arr)])
                 clk u)
      as (field' & body' & Hrun & Hf' & Hb').
    { apply len_le32. }
    { rewrite len_app. unfold len in *. rewrite length_skipn. lia. }
    exists field', body'. rewrite Hrun. cbn [map].
    rewrite <- (app_assoc tr).
    unfold data_packet. rewrite <- (app_assoc (blit "DATA")).
    repeat split; assumption.
Qed.

(** ** Running [push] *)

(** The sections that the loop of [push] goes through. *)
Definition sections_of (buffer : bytes) : list bytes :=
  Np.array_split buffer (Np.arange 65536 (len buffer) 65536).

(** The request string of the [SEND] header. *)
Definition push_request (path : bytes) (mode : Z) : bytes :=
  path ++ blit "," ++ Fmt.format_d mode.

Definition mode_or_default (mode : option Z) : Z :=
  match mode with Some m => m | None => 33261 end.

(** The events of a push that gets its eight status bytes. *)
Definition push_events (path : bytes) (mode t : Z) (buffer : bytes)
  : list event :=
  [EvSend (blit "0005sync:"); EvRecvExactly 4;
   EvSend (blit "SEND" ++ le32 (len (push_request path mode))
                ++ push_request path mode)]
  ++ map (fun c => EvSendAll (data_packet c)) (sections_of buffer)
  ++ [EvSendAll (blit "DONE" ++ le32 t); EvRecvExactly 8; EvClose].

Lemma sections_bounded (buffer : bytes) :
  Forall (fun c => len c <= 65536) (sections_of buffer).
Proof. apply array_split_bounded. lia. Qed.

Lemma ret_run {A : Type} (a : A) (s : world) : ret a s = (inr a, s).
Proof. reflexivity. Qed.

Lemma mtime_run (mtime : option Z) (w : world) :
  (match mtime with Some t => ret t | None => time_now end) w
  = (inr (match mtime with Some t => t | None => clock w end), w).
Proof. destruct mtime; reflexivity. Qed.

Lemma push_run (target_path : str) (buffer : bytes) (mode mtime : option Z)
      (path status rest : bytes) tr clk u :
  let m := mode_or_default mode in
  let t := match mtime with Some t => t | None => clk end in
  Utf8.encode target_path = Some path ->
  len (push_request path m) < 4294967296 ->
  0 <= t < 4294967296 ->
  len status = 8 ->
  push target_path buffer mode mtime
       (mkWorld (OKAY ++ status ++ rest) tr false clk u)
  = ((if bytes_eqb (slice status 0 4) OKAY then inr tt
      else inl (RuntimeError (ArgStr (slit "push failed")))),
     mkWorld rest (tr ++ push_events path m t buffer) true clk u).
Proof.
  intros m t He Hreq Ht Hst.
  pose proof (len_nonneg (push_request path m)) as Hnn.
  unfold push. fold (mode_or_default mode). fold m. cbv zeta.
  unfold str_encode. unfold bind, lift_opt.
  rewrite (service_ok (slit "sync:") (blit "sync:")) by reflexivity.
  change (request_of (blit "sync:")) with (blit "0005sync:").
  rewrite He. cbv beta iota. rewrite ret_run. cbv beta iota.
  fold (push_request path m).
  rewrite struct_pack_I_ok by lia. cbv beta iota.
  rewrite ret_run. cbv beta iota.
  rewrite sock_send_ok. cbv beta iota.
  unfold Np.empty. cbv beta iota. cbn [uninit].
  set (junk := map u (seq 0 (Z.to_nat (65536 + 8)))).
  assert (Hjunk : len junk = 65544).
  { unfold junk, len. rewrite length_map, length_seq.
    rewrite Z2Nat.id by discriminate. reflexivity. }
  clearbody junk.
  assert (Hdata : len (blit "DATA") = 4) by reflexivity.
  rewrite (setslice_front junk (blit "DATA") 4) by (trivial; lia).
  cbv beta iota. rewrite ret_run. cbv beta iota.
  rewrite Hdata. change (Z.to_nat 4) with 4%nat.
  rewrite <- (firstn_skipn 4 (skipn 4 junk)).
  destruct (push_loop_run (sections_of buffer) (sections_bounded buffer)
              (firstn 4 (skipn 4 junk)) (skipn 4 (skipn 4 junk))
              (status ++ rest)
              (tr ++ [EvSend (blit "0005sync:"); EvRecvExactly 4;
                      EvSend (blit "SEND" ++ le32 (len (push_request path m))
                                   ++ push_request path m)])
              clk u)
    as (field' & body' & Hrun & _ & _).
  { unfold len in *. rewrite length_firstn, !length_skipn. lia. }
  { unfold len in *. rewrite !length_skipn. lia. }
  fold (sections_of buffer).
  rewrite <- !app_assoc. cbn [app].
  rewrite Hrun. cbv beta iota.
  rewrite mtime_run. cbn [clock]. fold t. cbv beta iota.
  rewrite struct_pack_I_ok by lia. cbv beta iota.
  rewrite ret_run. cbv beta iota.
  rewrite sock_sendall_ok. cbv beta iota.
  rewrite recvexactly_ok by assumption. cbv beta iota.
  unfold sock_close. cbv beta iota. cbn [incoming trace clock uninit].
  unfold push_events. rewrite <- !app_assoc. cbn [app].
  destruct (bytes_eqb (slice status 0 4) OKAY); reflexivity.
Qed.

(** What [push] needs to get through to the end: an open socket, an [OKAY]
    for [sync:] and eight status bytes to come, a path that can be encoded,
    and a request length and a modification time that fit 32 bits. *)
Definition push_completes (s : world) (target_path : str)
           (mode mtime : option Z) (path status rest : bytes) : Prop :=
  closed s = false
  /\ incoming s = OKAY ++ status ++ rest
  /\ len status = 8
  /\ Utf8.encode target_path = Some path
  /\ len (push_request path (mode_or_default mode)) < 4294967296
  /\ 0 <= match mtime with Some t => t | None => clock s end < 4294967296.

Lemma push_run_from (s : world) (target_path : str) (buffer : bytes)
      (mode mtime : option Z) (path status rest : bytes) :
  push_completes s target_path mode mtime path status rest ->
  push target_path buffer mode mtime s
  = ((if bytes_eqb (slice status 0 4) OKAY then inr tt
      else inl (RuntimeError (ArgStr (slit "push failed")))),
     mkWorld rest
       (trace s
          ++ push_events path (mode_or_default mode)
               (match mtime with Some t => t | None => clock s end) buffer)
       true (clock s) (uninit s)).
Proof.
  destruct s as [inc tr cl clk u]. unfold push_completes.
  cbn [closed incoming clock trace uninit].
  intros (-> & -> & Hst & He & Hreq & Ht).
  now apply push_run.
Qed.

(** ** The chunks of a push *)

(** C1: a push of a buffer that is not empty writes, between the [SEND]
    header and the [DONE] trailer, one [DATA] sub-packet per chunk, where the
    chunks in order make up the buffer, chunk [i] is the window of the
    buffer from offset [65536 * i] to offset [65536 * (i + 1)], every chunk
    but the last has 65536 bytes and the last has between 1 and 65536.  A
    buffer of 150000 bytes goes out in chunks of 65536, 65536 and 18928
    bytes. *)
Theorem push_sends_buffer_in_fixed_chunks :
  forall (s : world) (target_path : str) (buffer : bytes)
         (mode mtime : option Z) (path status rest : bytes),
    push_completes s target_path mode mtime path status rest ->
    buffer <> [] ->
    exists (chunks : list bytes) (header trailer : bytes),
      trace (snd (push target_path buffer mode mtime s))
      = trace s
          ++ [EvSend (blit "0005sync:"); EvRecvExactly 4;
              EvSend (blit "SEND" ++ header)]
          ++ map (fun c => EvSendAll (blit "DATA" ++ le32 (len c) ++ c)) chunks
          ++ [EvSendAll (blit "DONE" ++ trailer); EvRecvExactly 8; EvClose]
      /\ List.concat chunks = buffer
      /\ (forall i : nat,
             (i < List.length chunks)%nat ->
             nth i chunks []
             = slice buffer (65536 * Z.of_nat i) (65536 * (Z.of_nat i + 1)))
      /\ (forall i : nat,
             (S i < List.length chunks)%nat -> len (nth i chunks []) = 65536)
      /\ 0 < len (last chunks []) <= 65536
      /\ (len buffer = 150000 -> map len chunks = [65536; 65536; 18928]).
Proof.
  intros s target_path buffer mode mtime path status rest Hrun Hne.
  exists (sections_of buffer).
  exists (le32 (len (push_request path (mode_or_default mode)))
            ++ push_request path (mode_or_default mode)).
  exists (le32 (match mtime with Some t => t | None => clock s end)).
  rewrite (push_run_from _ _ buffer _ _ _ _ _ Hrun). cbn [snd trace].
  assert (HK : 0 < 65536) by lia.
  pose proof (cuts_bounds 65536 HK buffer) as [[Hlo Hhi] Hpos].
  specialize (Hpos Hne).
  pose proof (array_split_length 65536 HK buffer) as Hlen.
  fold (sections_of buffer) in Hlen.
  split; [reflexivity|]. split; [apply array_split_concat; lia|].
  split; [|split; [|split]].
  - intros i Hi. unfold sections_of.
    rewrite array_split_nth by (try lia; rewrite <- Hlen; exact Hi).
    f_equal; lia.
  - intros i Hi. unfold sections_of.
    apply array_split_full; lia.
  - rewrite last_as_nth, Hlen.
    replace (cuts 65536 buffer + 1 - 1)%nat with (cuts 65536 buffer) by lia.
    unfold sections_of. rewrite array_split_last by lia. lia.
  - intros H15. unfold sections_of.
    rewrite array_split_windows by lia.
    unfold cuts. rewrite H15.
    change (Z.to_nat (- ((65536 - 150000) / 65536))) with 2%nat.
    cbn [Nat.add seq map].
    rewrite !len_slice by lia. rewrite H15.
    repeat (f_equal; try lia).
Qed.

(** A session on which the server accepts [sync:] and the push. *)
Definition accepting : world := fresh (blit "OKAYOKAY0000").

Lemma accepting_completes :
  push_completes accepting (slit "/sdcard/f") None (Some 0)
                 (blit "/sdcard/f") (blit "OKAY0000") [].
Proof.
  unfold push_completes. repeat split; try reflexivity; discriminate.
Qed.

Lemma push_sends_buffer_in_fixed_chunks_witness :
  push_completes accepting (slit "/sdcard/f") None (Some 0)
                 (blit "/sdcard/f") (blit "OKAY0000") []
  /\ repeat x00 (Z.to_nat 150000) <> []
  /\ len (repeat x00 (Z.to_nat 150000)) = 150000
  /\ exists chunks : list bytes,
       List.concat chunks = repeat x00 (Z.to_nat 150000)
       /\ map len chunks = [65536; 65536; 18928].
Proof.
  assert (H15 : len (repeat x00 (Z.to_nat 150000)) = 150000)
    by (unfold len; rewrite repeat_length; apply Z2Nat.id; discriminate).
  assert (Hne : repeat x00 (Z.to_nat 150000) <> []).
  { intros E. rewrite E in H15. discriminate H15. }
  split; [exact accepting_completes|]. split; [exact Hne|].
  split; [exact H15|].
  destruct (push_sends_buffer_in_fixed_chunks
              accepting (slit "/sdcard/f") (repeat x00 (Z.to_nat 150000))
              None (Some 0) (blit "/sdcard/f") (blit "OKAY0000") []
              accepting_completes Hne)
    as (chunks & _ & _ & _ & Hcat & _ & _ & _ & Hsizes).
  exists chunks. split; [exact Hcat | exact (Hsizes H15)].
Defined.

(** The claim that a push of the empty buffer writes no [DATA] sub-packet:
    right behind the [SEND] header comes the [DONE] trailer. *)
Definition empty_push_goes_straight_to_done
           (s : world) (target_path : str) (mode mtime : option Z) : Prop :=
  exists (header trailer : bytes) (then_ : list event),
    trace (snd (push target_path [] mode mtime s))
    = trace s
        ++ [EvSend (blit "0005sync:"); EvRecvExactly 4;
            EvSend (blit "SEND" ++ header);
            EvSendAll (blit "DONE" ++ trailer)]
        ++ then_.

Lemma sections_of_empty : sections_of [] = [[]].
Proof. reflexivity. Qed.

Lemma data_packet_empty :
  data_packet [] = blit "DATA" ++ [x00; x00; x00; x00].
Proof. reflexivity. Qed.

(** The array of cut points is empty for the empty buffer, and
    [array_split] then gives one section, the empty one: the loop runs once
    and writes a [DATA] sub-packet of length zero. *)
Lemma empty_push_sends_a_data_packet :
  ~ empty_push_goes_straight_to_done accepting (slit "/sdcard/f")
      None (Some 0).
Proof.
  unfold empty_push_goes_straight_to_done.
  intros (header & trailer & then_ & H).
  rewrite (push_run_from _ _ [] _ _ _ _ _ accepting_completes) in H.
  unfold push_events in H. rewrite sections_of_empty in H.
  cbn [snd trace accepting fresh map app] in H.
  injection H as _ H. discriminate H.
Qed.

(** C2, as the code has it: a push of the empty buffer writes exactly one
    [DATA] sub-packet between the [SEND] header and the [DONE] trailer; its
    length field is zero and it carries no payload. *)
Theorem push_empty_buffer_sends_one_empty_data_packet :
  forall (s : world) (target_path : str) (mode mtime : option Z)
         (path status rest : bytes),
    push_completes s target_path mode mtime path status rest ->
    exists header trailer : bytes,
      trace (snd (push target_path [] mode mtime s))
      = trace s
          ++ [EvSend (blit "0005sync:"); EvRecvExactly 4;
              EvSend (blit "SEND" ++ header);
              EvSendAll (blit "DATA" ++ [x00; x00; x00; x00]);
              EvSendAll (blit "DONE" ++ trailer);
              EvRecvExactly 8; EvClose].
Proof.
  intros s target_path mode mtime path status rest Hrun.
  exists (le32 (len (push_request path (mode_or_default mode)))
            ++ push_request path (mode_or_default mode)).
  exists (le32 (match mtime with Some t => t | None => clock s end)).
  rewrite (push_run_from _ _ [] _ _ _ _ _ Hrun). cbn [snd trace].
  unfold push_events. rewrite sections_of_empty. cbn [map].
  rewrite data_packet_empty. reflexivity.
Qed.

Lemma push_empty_buffer_sends_one_empty_data_packet_witness :
  push_completes accepting (slit "/sdcard/f") None (Some 0)
                 (blit "/sdcard/f") (blit "OKAY0000") []
  /\ exists header trailer : bytes,
       trace (snd (push (slit "/sdcard/f") [] None (Some 0) accepting))
       = trace accepting
           ++ [EvSend (blit "0005sync:"); EvRecvExactly 4;
               EvSend (blit "SEND" ++ header);
               EvSendAll (blit "DATA" ++ [x00; x00; x00; x00]);
               EvSendAll (blit "DONE" ++ trailer);
               EvRecvExactly 8; EvClose].
Proof.
  split; [exact accepting_completes|].
  exact (push_empty_buffer_sends_one_empty_data_packet
           accepting (slit "/sdcard/f") None (Some 0)
           (blit "/sdcard/f") (blit "OKAY0000") [] accepting_completes).
Defined.

(** ** The final status of a push *)

(** C4: at its end [push] reads exactly eight bytes and closes the socket.
    When the first four of them are [OKAY] the call returns; when they are
    not, it raises [RuntimeError] (the spec's ProtocolError) with the
    message [push failed].  Either way the socket is closed, the read of the
    eight bytes and the close are the last two things done on it, and what
    the peer sent behind the eight bytes is left unread. *)
Theorem push_reads_final_status_and_closes :
  forall (s : world) (target_path : str) (buffer : bytes)
         (mode mtime : option Z) (path status rest : bytes),
    push_completes s target_path mode mtime path status rest ->
    (slice status 0 4 = OKAY ->
     fst (push target_path buffer mode mtime s) = inr tt)
    /\ (slice status 0 4 <> OKAY ->
        fst (push target_path buffer mode mtime s)
        = inl (RuntimeError (ArgStr (slit "push failed"))))
    /\ closed (snd (push target_path buffer mode mtime s)) = true
    /\ incoming (snd (push target_path buffer mode mtime s)) = rest
    /\ exists before : list event,
         trace (snd (push target_path buffer mode mtime s))
         = before ++ [EvRecvExactly 8; EvClose].
Proof.
  intros s target_path buffer mode mtime path status rest Hrun.
  rewrite (push_run_from _ _ buffer _ _ _ _ _ Hrun).
  cbn [fst snd closed incoming trace].
  split; [|split; [|split; [|split]]].
  - intros ->. rewrite bytes_eqb_refl. reflexivity.
  - intros Hne. rewrite (bytes_eqb_neq _ _ Hne). reflexivity.
  - reflexivity.
  - reflexivity.
  - unfold push_events.
    eexists. rewrite !app_assoc.
    change [EvSendAll
              (blit "DONE"
                 ++ le32 match mtime with Some t => t | None => clock s end);
            EvRecvExactly 8; EvClose]
      with ([EvSendAll
               (blit "DONE"
                  ++ le32 match mtime with Some t => t | None => clock s end)]
            ++ [EvRecvExactly 8; EvClose]).
    rewrite app_assoc. reflexivity.
Qed.

Lemma push_reads_final_status_and_closes_witness :
  (push_completes accepting (slit "/sdcard/f") None (Some 0)
                  (blit "/sdcard/f") (blit "OKAY0000") []
   /\ fst (push (slit "/sdcard/f") (blit "hello") None (Some 0) accepting)
      = inr tt
   /\ closed (snd (push (slit "/sdcard/f") (blit "hello") None (Some 0)
                        accepting)) = true)
  /\ (push_completes (fresh (blit "OKAYFAIL0000")) (slit "/sdcard/f")
                     None (Some 0) (blit "/sdcard/f") (blit "FAIL0000") []
      /\ fst (push (slit "/sdcard/f") (blit "hello") None (Some 0)
                   (fresh (blit "OKAYFAIL0000")))
         = inl (RuntimeError (ArgStr (slit "push failed")))
      /\ closed (snd (push (slit "/sdcard/f") (blit "hello") None (Some 0)
                           (fresh (blit "OKAYFAIL0000")))) = true).
Proof.
  assert (Hfail : push_completes (fresh (blit "OKAYFAIL0000"))
                    (slit "/sdcard/f") None (Some 0)
                    (blit "/sdcard/f") (blit "FAIL0000") []).
  { unfold push_completes. repeat split; try reflexivity; discriminate. }
  split.
  - split; [exact accepting_completes|].
    destruct (push_reads_final_status_and_closes
                accepting (slit "/sdcard/f") (blit "hello") None (Some 0)
                (blit "/sdcard/f") (blit "OKAY0000") [] accepting_completes)
      as (Hok & _ & Hcl & _).
    split; [apply Hok; reflexivity | exact Hcl].
  - split; [exact Hfail|].
    destruct (push_reads_final_status_and_closes
                (fresh (blit "OKAYFAIL0000")) (slit "/sdcard/f")
                (blit "hello") None (Some 0)
                (blit "/sdcard/f") (blit "FAIL0000") [] Hfail)
      as (_ & Hbad & Hcl & _).
    split; [apply Hbad; discriminate | exact Hcl].
Defined.

(** ** What a computation writes

    [emits P Q m]: from any state, [m] only adds events to the log, every
    event it adds satisfies [P], and a value it returns satisfies [Q]. *)

Definition emits {A : Type} (P : event -> Prop) (Q : A -> Prop) (m : M A)
  : Prop :=
  forall s : world,
    exists new : list event,
      trace (snd (m s)) = trace s ++ new
      /\ Forall P new
      /\ (forall a, fst (m s) = inr a -> Q a).

Section Emits.
Variable P : event -> Prop.

Lemma emits_ret {A : Type} (Q : A -> Prop) (a : A) :
  Q a -> emits P Q (ret a).
Proof.
  intros HQ s. exists []. cbn. rewrite app_nil_r.
  repeat split; [constructor|]. intros a' E. now injection E as <-.
Qed.

Lemma emits_raise {A : Type} (Q : A -> Prop) (e : exn) :
  emits P Q (raise e).
Proof.
  intros s. exists []. cbn. rewrite app_nil_r.
  repeat split; [constructor|]. intros a' E. discriminate E.
Qed.

Lemma emits_lift_opt {A : Type} (Q : A -> Prop) (e : exn) (o : option A) :
  (forall a, o = Some a -> Q a) -> emits P Q (lift_opt e o).
Proof.
  intros HQ. destruct o as [a|]; cbn [lift_opt].
  - apply emits_ret. now apply HQ.
  - apply emits_raise.
Qed.

Lemma emits_bind {A B : Type} (Q : A -> Prop) (R : B -> Prop)
      (m : M A) (k : A -> M B) :
  emits P Q m -> (forall a, Q a -> emits P R (k a)) ->
  emits P R (bind m k).
Proof.
  intros Hm Hk s. destruct (Hm s) as (new1 & Ht1 & HP1 & HQ1).
  unfold bind. destruct (m s) as [[e|a] s1]; cbn [fst snd] in *.
  - exists new1. repeat split; try assumption. intros b E. discriminate E.
  - destruct (Hk a (HQ1 a eq_refl) s1) as (new2 & Ht2 & HP2 & HQ2).
    exists (new1 ++ new2). rewrite Ht2, Ht1, app_assoc.
    repeat split; [now apply Forall_app | assumption].
Qed.

Lemma emits_one {A : Type} (m : M A) (e : event) :
  P e ->
  (forall s, trace (snd (m s)) = trace s
             \/ trace (snd (m s)) = trace s ++ [e]) ->
  emits P (fun _ => True) m.
Proof.
  intros He Hm s. destruct (Hm s) as [E|E].
  - exists []. rewrite app_nil_r. repeat split; [assumption | constructor].
  - exists [e]. repeat split; [assumption | now constructor].
Qed.

Lemma emits_send (sock : sockref) (d : bytes) :
  P (EvSend d) -> emits P (fun _ => True) (sock_send sock d).
Proof.
  intros H. apply (emits_one _ (EvSend d) H). intros s.
  unfold sock_send. destruct (closed s); [left | right]; reflexivity.
Qed.

Lemma emits_sendall (sock : sockref) (d : bytes) :
  P (EvSendAll d) -> emits P (fun _ => True) (sock_sendall sock d).
Proof.
  intros H. apply (emits_one _ (EvSendAll d) H). intros s.
  unfold sock_sendall. destruct (closed s); [left | right]; reflexivity.
Qed.

Lemma emits_close (sock : sockref) :
  P EvClose -> emits P (fun _ => True) (sock_close sock).
Proof.
  intros H. apply (emits_one _ EvClose H). intros s. right. reflexivity.
Qed.

Lemma emits_recvexactly (sock : sockref) (n : Z) :
  P (EvRecvExactly n) -> emits P (fun _ => True) (recvexactly sock n).
Proof.
  intros H. apply (emits_one _ (EvRecvExactly n) H). intros s.
  unfold recvexactly. destruct (closed s); [left; reflexivity|].
  destruct (n <? 0); [left; reflexivity|].
  destruct (n <=? len (incoming s)); right; reflexivity.
Qed.

Lemma emits_recvall (sock : sockref) :
  P EvRecvAll -> emits P (fun _ => True) (recvall sock).
Proof.
  intros H. apply (emits_one _ EvRecvAll H). intros s.
  unfold recvall. destruct (closed s); [left | right]; reflexivity.
Qed.

Hypothesis Hrecv : forall n, P (EvRecvExactly n).
Hypothesis Hsend : forall d, P (EvSend d).

Lemma emits_read_hexlen (sock : sockref) :
  emits P (fun _ => True) (_read_hexlen sock).
Proof.
  unfold _read_hexlen.
  eapply emits_bind; [apply emits_recvexactly, Hrecv|]. intros digits _.
  eapply emits_bind; [apply (emits_lift_opt (fun _ => True)); trivial|].
  intros textlen _. destruct (textlen =? 0); [now apply emits_ret|].
  eapply emits_bind; [apply emits_recvexactly, Hrecv|]. intros buf _.
  now apply emits_ret.
Qed.

Lemma emits_check_okay (sock : sockref) :
  emits P (fun _ => True) (_check_okay sock).
Proof.
  unfold _check_okay.
  eapply emits_bind; [apply emits_recvexactly, Hrecv|]. intros result _.
  destruct (negb (bytes_eqb result OKAY)); [|now apply emits_ret].
  eapply emits_bind; [apply emits_read_hexlen|]. intros msg _.
  apply emits_raise.
Qed.

Lemma emits_service (cmd : str) : emits P (fun _ => True) (service cmd).
Proof.
  unfold service, str_encode.
  eapply emits_bind; [apply (emits_lift_opt (fun _ => True)); trivial|].
  intros cmdbytes _.
  eapply emits_bind; [apply emits_send, Hsend|]. intros _ _.
  eapply emits_bind; [apply emits_check_okay|]. intros _ _.
  now apply emits_ret.
Qed.
End Emits.

(** ** The ceiling on the chunk length *)

(** What is asked of an event: if it writes a [DATA] sub-packet, the length
    field of the packet is at most 65536 and the payload has that length. *)
Definition data_bounded (e : event) : Prop :=
  match e with
  | EvSendAll d =>
      slice d 0 4 = blit "DATA" ->
      le32_value (slice d 4 8) <= 65536
      /\ len d = 8 + le32_value (slice d 4 8)
  | _ => True
  end.

Lemma slice_middle {A : Type} (a b c : list A) (st en : Z) :
  len a = st -> st + len b = en -> slice (a ++ b ++ c) st en = b.
Proof.
  intros Hst Hen. pose proof (len_nonneg a). pose proof (len_nonneg b).
  rewrite slice_firstn_skipn by lia.
  rewrite skipn_len_app by assumption.
  apply firstn_len_app. lia.
Qed.

Lemma data_packet_bounded (arr : bytes) :
  len arr <= 65536 -> data_bounded (EvSendAll (data_packet arr)).
Proof.
  intros Harr _. pose proof (len_nonneg arr). unfold data_packet.
  rewrite (slice_middle (blit "DATA") (le32 (len arr)) arr 4 8)
    by reflexivity.
  rewrite le32_value_le32 by lia.
  split; [assumption|]. rewrite !len_app, len_le32.
  change (len (blit "DATA")) with 4. lia.
Qed.

Lemma done_packet_bounded (trailer : bytes) :
  data_bounded (EvSendAll (blit "DONE" ++ trailer)).
Proof.
  intros H. rewrite slice_prefix in H by reflexivity. discriminate H.
Qed.

Lemma emits_empty (P : event -> Prop) (n : Z) :
  0 <= n -> emits P (fun a => len a = n) (Np.empty n).
Proof.
  intros Hn s. exists []. unfold Np.empty. cbn [fst snd].
  rewrite app_nil_r. repeat split; [constructor|].
  intros a E. injection E as <-.
  unfold len. rewrite length_map, length_seq. now apply Z2Nat.id.
Qed.

Lemma emits_mtime (P : event -> Prop) (mtime : option Z) :
  emits P (fun _ => True)
        (match mtime with Some t => ret t | None => time_now end).
Proof.
  destruct mtime; [now apply emits_ret|].
  intros s. exists []. unfold time_now. cbn [fst snd].
  rewrite app_nil_r. repeat split; constructor.
Qed.

Lemma emits_push_loop (sections : list bytes) :
  Forall (fun c => len c <= 65536) sections ->
  forall field body : bytes,
    len field = 4 -> len body = 65536 ->
    emits data_bounded (fun _ => True)
          (push_loop (blit "DATA" ++ field ++ body) sections).
Proof.
  induction 1 as [|arr rest Harr _ IH]; intros field body Hf Hb.
  - cbn [push_loop]. now apply emits_ret.
  - pose proof (len_nonneg arr) as Hnn. cbn [push_loop].
    apply (emits_bind _ (fun f => f = le32 (len arr))).
    { apply emits_lift_opt. intros f E.
      rewrite struct_pack_I_ok in E by lia. now injection E. }
    intros f ->.
    apply (emits_bind _ (fun b => b = (blit "DATA" ++ le32 (len arr))
                                       ++ body)).
    { apply emits_lift_opt. intros b E.
      rewrite (setslice_within (blit "DATA") field body (le32 (len arr)) 4 8)
        in E by (try reflexivity; assumption).
      injection E as <-. reflexivity. }
    intros b ->.
    apply (emits_bind _ (fun c => c = (blit "DATA" ++ le32 (len arr))
                                       ++ arr
                                       ++ skipn (Z.to_nat (len arr)) body)).
    { apply emits_lift_opt. intros c E.
      rewrite (setslice_over (blit "DATA" ++ le32 (len arr)) body arr
                 8 (8 + len arr)) in E by (try reflexivity; lia).
      now injection E. }
    intros c ->.
    apply (emits_bind _ (fun _ => True)).
    { apply emits_sendall.
      rewrite (app_assoc (blit "DATA" ++ le32 (len arr)) arr).
      rewrite slice_prefix
        by (rewrite !len_app; change (len (blit "DATA")) with 4;
            rewrite len_le32; lia).
      rewrite <- (app_assoc (blit "DATA")).
      now apply data_packet_bounded. }
    intros _ _.
    rewrite <- (app_assoc (blit "DATA")).
    apply IH; [apply len_le32|].
    rewrite len_app. unfold len in *. rewrite length_skipn. lia.
Qed.

Lemma emits_push (target_path : str) (buffer : bytes) (mode mtime : option Z) :
  emits data_bounded (fun _ => True) (push target_path buffer mode mtime).
Proof.
  unfold push. cbv zeta.
  eapply emits_bind; [apply emits_service; intros; exact I|]. intros _ _.
  unfold str_encode.
  eapply emits_bind; [apply (emits_lift_opt _ (fun _ => True)); trivial|].
  intros path _.
  eapply emits_bind; [apply (emits_lift_opt _ (fun _ => True)); trivial|].
  intros hdr _.
  eapply emits_bind; [apply emits_send; exact I|]. intros _ _.
  eapply emits_bind; [apply emits_empty; discriminate|].
  intros junk Hjunk. cbv beta in Hjunk.
  apply (emits_bind _ (fun b => exists field body,
                           b = blit "DATA" ++ field ++ body
                           /\ len field = 4 /\ len body = 65536)).
  { apply emits_lift_opt. intros b E.
    assert (Hdata : len (blit "DATA") = 4) by reflexivity.
    rewrite (setslice_front junk (blit "DATA") 4) in E
      by (trivial; rewrite Hjunk, Hdata; discriminate).
    rewrite Hdata in E. change (Z.to_nat 4) with 4%nat in E.
    injection E as <-.
    exists (firstn 4 (skipn 4 junk)), (skipn 4 (skipn 4 junk)).
    rewrite firstn_skipn. split; [reflexivity|].
    unfold len in *. rewrite length_firstn, !length_skipn. lia. }
  intros b (field & body & -> & Hf & Hb).
  eapply emits_bind;
    [apply emits_push_loop; [apply sections_bounded | assumption..]|].
  intros _ _.
  eapply emits_bind; [apply emits_mtime|]. intros t _.
  eapply emits_bind; [apply (emits_lift_opt _ (fun _ => True)); trivial|].
  intros trailer _.
  eapply emits_bind; [apply emits_sendall, done_packet_bounded|].
  intros _ _.
  eapply emits_bind; [apply emits_recvexactly; exact I|]. intros response _.
  eapply emits_bind; [apply emits_close; exact I|]. intros _ _.
  destruct (negb (bytes_eqb (slice response 0 4) OKAY));
    [apply emits_raise | now apply emits_ret].
Qed.

(** C3: whatever the buffer, the arguments and the state of the
    connection, every [DATA] sub-packet that [push] writes has a length field
    of at most 65536, and carries exactly that many bytes. *)
Theorem push_chunk_length_never_exceeds_65536 :
  forall (target_path : str) (buffer : bytes) (mode mtime : option Z)
         (s : world),
    exists new : list event,
      trace (snd (push target_path buffer mode mtime s)) = trace s ++ new
      /\ forall d : bytes,
           In (EvSendAll d) new ->
           slice d 0 4 = blit "DATA" ->
           le32_value (slice d 4 8) <= 65536
           /\ len d = 8 + le32_value (slice d 4 8).
Proof.
  intros target_path buffer mode mtime s.
  destruct (emits_push target_path buffer mode mtime s)
    as (new & Ht & HP & _).
  exists new. split; [exact Ht|].
  intros d Hin. rewrite Forall_forall in HP. exact (HP _ Hin).
Qed.


(** * Further properties of the session *)

(** ** Service requests that succeed *)

(** X1: on an [OKAY] reply, [service] returns, having written the request
    (the length prefix and the encoded command) in one [send] and read the
    four status bytes and nothing else; the socket stays open and what the
    server sent behind the status is still to be read. *)
Theorem service_okay_reads_only_the_status :
  forall (s : world) (cmd : str) (cmdbytes rest : bytes),
    closed s = false ->
    Utf8.encode cmd = Some cmdbytes ->
    incoming s = OKAY ++ rest ->
    service cmd s
    = (inr tt,
       mkWorld rest
         (trace s ++ [EvSend (Fmt.format_04X (len cmdbytes) ++ cmdbytes);
                      EvRecvExactly 4])
         false (clock s) (uninit s)).
Proof.
  intros [inc tr cl clk u] cmd cmdbytes rest.
  cbn [closed incoming trace clock uninit]. intros -> He ->.
  now apply service_ok.
Qed.

Lemma service_okay_reads_only_the_status_witness :
  closed (fresh (blit "OKAY0000")) = false
  /\ Utf8.encode (slit "host:version") = Some (blit "host:version")
  /\ service (slit "host:version") (fresh (blit "OKAY0004001f"))
     = (inr tt,
        mkWorld (blit "0004001f")
          [EvSend (blit "000Chost:version"); EvRecvExactly 4]
          false 0 (uninit (fresh []))).
Proof.
  split; [reflexivity|]. split; [reflexivity|].
  apply (service_okay_reads_only_the_status
           (fresh (blit "OKAY0004001f")) (slit "host:version")
           (blit "host:version") (blit "0004001f"));
    reflexivity.
Defined.

(** ** Transport selection *)

(** X2: the transport selectors are service requests with fixed commands:
    [device()] asks for [host:transport-any], [usbdevice()] for
    [host:transport-usb], [emulator()] for [host:transport-local], and
    [device(devid)] for [host:transport:] followed by the identifier, framed
    with the length of the whole command.  On [OKAY] each returns with only
    the status read. *)
Theorem transport_selectors_send_fixed_requests :
  forall (s : world) (rest : bytes),
    closed s = false ->
    incoming s = OKAY ++ rest ->
    let after (request : bytes) :=
      (@inr exn unit tt,
       mkWorld rest (trace s ++ [EvSend request; EvRecvExactly 4])
               false (clock s) (uninit s)) in
    device None s = after (blit "0012host:transport-any")
    /\ usbdevice s = after (blit "0012host:transport-usb")
    /\ emulator s = after (blit "0014host:transport-local")
    /\ forall (devid : str) (idbytes : bytes),
         Utf8.encode devid = Some idbytes ->
         device (Some devid) s
         = after (Fmt.format_04X (15 + len idbytes)
                    ++ blit "host:transport:" ++ idbytes).
Proof.
  intros [inc tr cl clk u] rest.
  cbn [closed incoming trace clock uninit]. intros -> ->.
  split; [|split; [|split]].
  - apply (service_ok (slit "host:transport-any")
                      (blit "host:transport-any")). reflexivity.
  - apply (service_ok (slit "host:transport-usb")
                      (blit "host:transport-usb")). reflexivity.
  - apply (service_ok (slit "host:transport-local")
                      (blit "host:transport-local")). reflexivity.
  - intros devid idbytes He. cbn [device].
    rewrite (service_ok (slit "host:transport:" ++ devid)
                        (blit "host:transport:" ++ idbytes))
      by (rewrite encode_app, He; reflexivity).
    unfold request_of. rewrite len_app.
    change (len (blit "host:transport:")) with 15. reflexivity.
Qed.

Lemma transport_selectors_send_fixed_requests_witness :
  closed (fresh OKAY) = false
  /\ incoming (fresh OKAY) = OKAY ++ []
  /\ device (Some (slit "emulator-5554")) (fresh OKAY)
     = (inr tt,
        mkWorld []
          [EvSend (blit "001Chost:transport:emulator-5554");
           EvRecvExactly 4]
          false 0 (uninit (fresh []))).
Proof.
  split; [reflexivity|]. split; [reflexivity|].
  destruct (transport_selectors_send_fixed_requests
              (fresh OKAY) [] eq_refl eq_refl)
    as (_ & _ & _ & H).
  apply (H (slit "emulator-5554") (blit "emulator-5554")). reflexivity.
Defined.

(** ** Blocking commands *)

Lemma blocking_run (prefix cmd : str) (req output : bytes) tr clk u :
  Utf8.encode (prefix ++ cmd) = Some req ->
  (sock <- (service (prefix ++ cmd) ;;; ret self_sock) ;;
   data <- recvall sock ;;
   sock_close sock ;;;
   ret data)
    (mkWorld (OKAY ++ output) tr false clk u)
  = (inr output,
     mkWorld []
       (tr ++ [EvSend (request_of req); EvRecvExactly 4; EvRecvAll; EvClose])
       true clk u).
Proof.
  intros He. unfold bind at 1.
  rewrite (stream_ok prefix cmd req output tr clk u He).
  unfold bind, recvall, sock_close, ret, log, set_incoming.
  cbn [closed incoming trace clock uninit].
  rewrite <- !app_assoc. reflexivity.
Qed.

(** X3: for a command that is not empty, on an [OKAY] reply the blocking
    [exec] and [shell] return all the bytes that the peer sends up to the end
    of the stream, as they are, and close the socket; on the socket they do
    four things in order: write the request, read the status, read to the
    end, close. *)
Theorem blocking_calls_return_output_and_close :
  forall (s : world) (cmd : str) (cmdbytes output : bytes),
    closed s = false ->
    cmd <> [] ->
    Utf8.encode cmd = Some cmdbytes ->
    incoming s = OKAY ++ output ->
    let after (request : bytes) :=
      (@inr exn bytes output,
       mkWorld []
         (trace s ++ [EvSend request; EvRecvExactly 4; EvRecvAll; EvClose])
         true (clock s) (uninit s)) in
    exec cmd s = after (request_of (blit "exec:" ++ cmdbytes))
    /\ shell cmd s = after (request_of (blit "shell:" ++ cmdbytes)).
Proof.
  intros [inc tr cl clk u] cmd cmdbytes output.
  cbn [closed incoming trace clock uninit]. intros -> Hne He ->.
  assert (Hlen : (len cmd =? 0) = false).
  { apply Z.eqb_neq. intros E. apply len_nil_iff in E. contradiction. }
  unfold exec, shell, exec_stream, shell_stream. rewrite Hlen. split.
  - apply (blocking_run (slit "exec:") cmd).
    rewrite encode_app, He. reflexivity.
  - apply (blocking_run (slit "shell:") cmd).
    rewrite encode_app, He. reflexivity.
Qed.

Lemma blocking_calls_return_output_and_close_witness :
  closed (fresh (blit "OKAYtotal 0")) = false
  /\ slit "ls" <> []
  /\ Utf8.encode (slit "ls") = Some (blit "ls")
  /\ shell (slit "ls") (fresh (blit "OKAYtotal 0"))
     = (inr (blit "total 0"),
        mkWorld []
          [EvSend (blit "0008shell:ls"); EvRecvExactly 4; EvRecvAll; EvClose]
          true 0 (uninit (fresh []))).
Proof.
  split; [reflexivity|]. split; [discriminate|]. split; [reflexivity|].
  apply (blocking_calls_return_output_and_close
           (fresh (blit "OKAYtotal 0")) (slit "ls") (blit "ls")
           (blit "total 0"));
    try reflexivity.
  discriminate.
Defined.

(** X4: when the server refuses the command (a status other than [OKAY],
    then a length-prefixed message), the blocking [exec] and [shell] raise
    [RuntimeError] with the message and do not close the socket: the close
    comes only behind a successful read of the output. *)
Theorem blocking_calls_leave_socket_open_on_failure :
  forall (s : world) (cmd : str)
         (cmdbytes status lenfield payload rest : bytes),
    closed s = false ->
    cmd <> [] ->
    Utf8.encode cmd = Some cmdbytes ->
    len status = 4 -> status <> OKAY ->
    len lenfield = 4 -> Fmt.int16 lenfield = Some (len payload) ->
    incoming s = status ++ lenfield ++ payload ++ rest ->
    let after (request : bytes) :=
      (@inl exn bytes (RuntimeError (ArgBytes payload)),
       mkWorld rest
         (trace s
            ++ [EvSend request; EvRecvExactly 4; EvRecvExactly 4]
            ++ (if len payload =? 0 then []
                else [EvRecvExactly (len payload)]))
         false (clock s) (uninit s)) in
    exec cmd s = after (request_of (blit "exec:" ++ cmdbytes))
    /\ shell cmd s = after (request_of (blit "shell:" ++ cmdbytes)).
Proof.
  intros [inc tr cl clk u] cmd cmdbytes status lenfield payload rest.
  cbn [closed incoming trace clock uninit].
  intros -> Hne He Hs Hst Hl Hint ->.
  assert (Hlen : (len cmd =? 0) = false).
  { apply Z.eqb_neq. intros E. apply len_nil_iff in E. contradiction. }
  assert (Hx : Utf8.encode (slit "exec:" ++ cmd)
               = Some (blit "exec:" ++ cmdbytes))
    by (rewrite encode_app, He; reflexivity).
  assert (Hsh : Utf8.encode (slit "shell:" ++ cmd)
                = Some (blit "shell:" ++ cmdbytes))
    by (rewrite encode_app, He; reflexivity).
  unfold exec, shell, exec_stream, shell_stream. rewrite Hlen.
  unfold bind.
  rewrite (service_fail _ _ status lenfield payload rest (len payload)
             tr clk u Hx Hs Hst Hl Hint eq_refl).
  rewrite (service_fail _ _ status lenfield payload rest (len payload)
             tr clk u Hsh Hs Hst Hl Hint eq_refl).
  split; reflexivity.
Qed.

Lemma blocking_calls_leave_socket_open_on_failure_witness :
  closed (fresh (blit "FAIL0006closed")) = false
  /\ Fmt.int16 (blit "0006") = Some (len (blit "closed"))
  /\ exec (slit "id") (fresh (blit "FAIL0006closed"))
     = (inl (RuntimeError (ArgBytes (blit "closed"))),
        mkWorld []
          [EvSend (blit "0007exec:id"); EvRecvExactly 4; EvRecvExactly 4;
           EvRecvExactly 6]
          false 0 (uninit (fresh []))).
Proof.
  split; [reflexivity|]. split; [reflexivity|].
  apply (blocking_calls_leave_socket_open_on_failure
           (fresh (blit "FAIL0006closed")) (slit "id") (blit "id")
           (blit "FAIL") (blit "0006") (blit "closed") []);
    try reflexivity; discriminate.
Defined.

(** ** Pushes that do not run to their end *)

(** What [push] does behind its loop. *)
Definition push_finish (mtime : option Z) : M unit :=
  mtime <- match mtime with Some t => ret t | None => time_now end ;;
  trailer <- lift_opt StructError (Fmt.struct_pack_I mtime) ;;
  sock_sendall self_sock (blit "DONE" ++ trailer) ;;;
  response <- recvexactly self_sock 8 ;;
  sock_close self_sock ;;;
  if negb (bytes_eqb (slice response 0 4) OKAY) then
    raise (RuntimeError (ArgStr (slit "push failed")))
  else ret tt.

(** The events of a push up to the end of its loop. *)
Definition push_body_events (path : bytes) (mode : Z) (buffer : bytes)
  : list event :=
  [EvSend (blit "0005sync:"); EvRecvExactly 4;
   EvSend (blit "SEND" ++ le32 (len (push_request path mode))
                ++ push_request path mode)]
  ++ map (fun c => EvSendAll (data_packet c)) (sections_of buffer).

(** Once [sync:] is accepted, the header and all the data go out whatever
    follows on the connection. *)
Lemma push_through_loop (target_path : str) (buffer : bytes)
      (mode mtime : option Z) (path inc : bytes) tr clk u :
  Utf8.encode target_path = Some path ->
  len (push_request path (mode_or_default mode)) < 4294967296 ->
  push target_path buffer mode mtime (mkWorld (OKAY ++ inc) tr false clk u)
  = push_finish mtime
      (mkWorld inc
         (tr ++ push_body_events path (mode_or_default mode) buffer)
         false clk u).
Proof.
  intros He Hreq. set (m := mode_or_default mode) in *.
  pose proof (len_nonneg (push_request path m)) as Hnn.
  unfold push. fold (mode_or_default mode). fold m. cbv zeta.
  unfold str_encode. unfold bind at 1 2 3 4 5 6 7. unfold lift_opt at 1 2 3.
  rewrite (service_ok (slit "sync:") (blit "sync:")) by reflexivity.
  change (request_of (blit "sync:")) with (blit "0005sync:").
  rewrite He. cbv beta iota. rewrite ret_run. cbv beta iota.
  fold (push_request path m).
  rewrite struct_pack_I_ok by lia. cbv beta iota.
  rewrite ret_run. cbv beta iota.
  rewrite sock_send_ok. cbv beta iota.
  unfold Np.empty. cbv beta iota. cbn [uninit].
  set (junk := map u (seq 0 (Z.to_nat (65536 + 8)))).
  assert (Hjunk : len junk = 65544).
  { unfold junk, len. rewrite length_map, length_seq.
    rewrite Z2Nat.id by discriminate. reflexivity. }
  clearbody junk.
  assert (Hdata : len (blit "DATA") = 4) by reflexivity.
  rewrite (setslice_front junk (blit "DATA") 4) by (trivial; lia).
  cbv beta iota. rewrite ret_run. cbv beta iota.
  rewrite Hdata. change (Z.to_nat 4) with 4%nat.
  rewrite <- (firstn_skipn 4 (skipn 4 junk)).
  destruct (push_loop_run (sections_of buffer) (sections_bounded buffer)
              (firstn 4 (skipn 4 junk)) (skipn 4 (skipn 4 junk))
              inc
              (tr ++ [EvSend (blit "0005sync:"); EvRecvExactly 4;
                      EvSend (blit "SEND" ++ le32 (len (push_request path m))
                                   ++ push_request path m)])
              clk u)
    as (field' & body' & Hrun & _ & _).
  { unfold len in *. rewrite length_firstn, !length_skipn. lia. }
  { unfold len in *. rewrite !length_skipn. lia. }
  fold (sections_of buffer).
  rewrite <- !app_assoc. cbn [app].
  rewrite Hrun. cbv beta iota.
  unfold push_body_events. rewrite <- !app_assoc. reflexivity.
Qed.

(** X5: when the peer closes before all eight status bytes have arrived,
    [push] raises the end-of-stream error of the read, after the header, all
    the data and the [DONE] trailer have been written, and it does not close
    the socket: the close stands behind the read. *)
Theorem push_truncated_status_leaves_socket_open :
  forall (s : world) (target_path : str) (buffer : bytes)
         (mode mtime : option Z) (path short : bytes),
    closed s = false ->
    incoming s = OKAY ++ short ->
    len short < 8 ->
    Utf8.encode target_path = Some path ->
    len (push_request path (mode_or_default mode)) < 4294967296 ->
    0 <= match mtime with Some t => t | None => clock s end < 4294967296 ->
    push target_path buffer mode mtime s
    = (inl EOFError,
       mkWorld []
         (trace s
            ++ push_body_events path (mode_or_default mode) buffer
            ++ [EvSendAll
                  (blit "DONE"
                     ++ le32 match mtime with
                             | Some t => t
                             | None => clock s
                             end);
                EvRecvExactly 8])
         false (clock s) (uninit s)).
Proof.
  intros [inc tr cl clk u] target_path buffer mode mtime path short.
  cbn [closed incoming trace clock uninit].
  intros -> -> Hshort He Hreq Ht.
  rewrite (push_through_loop _ _ _ _ _ _ _ _ _ He Hreq).
  unfold push_finish, bind. rewrite mtime_run. cbn [clock].
  rewrite struct_pack_I_ok by assumption.
  unfold lift_opt. rewrite ret_run. rewrite sock_sendall_ok.
  unfold recvexactly, log, set_incoming.
  cbn [closed incoming trace clock uninit].
  destruct (Z.ltb_spec 8 0); [lia|].
  destruct (Z.leb_spec 8 (len short)); [lia|].
  rewrite <- !app_assoc. reflexivity.
Qed.

Lemma push_truncated_status_leaves_socket_open_witness :
  len (blit "OKA") < 8
  /\ push (slit "/sdcard/f") (blit "hello") None (Some 7)
          (fresh (blit "OKAYOKA"))
     = (inl EOFError,
        mkWorld []
          (push_body_events (blit "/sdcard/f") 33261 (blit "hello")
             ++ [EvSendAll (blit "DONE" ++ le32 7); EvRecvExactly 8])
          false 0 (uninit (fresh []))).
Proof.
  split; [reflexivity|].
  apply (push_truncated_status_leaves_socket_open
           (fresh (blit "OKAYOKA")) (slit "/sdcard/f") (blit "hello")
           None (Some 7) (blit "/sdcard/f") (blit "OKA"));
    try reflexivity.
  split; [discriminate | reflexivity].
Defined.

(** X6: a modification time that does not fit 32 unsigned bits (a negative
    one, or [2^32] and more) makes [push] raise the error of [struct.pack],
    and it does so behind the loop: the header and every [DATA] sub-packet
    have been written, the [DONE] trailer has not, the status is not read
    and the socket is left open. *)
Theorem push_mtime_out_of_range_fails_after_data :
  forall (s : world) (target_path : str) (buffer : bytes)
         (mode mtime : option Z) (path inc : bytes),
    closed s = false ->
    incoming s = OKAY ++ inc ->
    Utf8.encode target_path = Some path ->
    len (push_request path (mode_or_default mode)) < 4294967296 ->
    ~ 0 <= match mtime with Some t => t | None => clock s end < 4294967296 ->
    push target_path buffer mode mtime s
    = (inl StructError,
       mkWorld inc
         (trace s ++ push_body_events path (mode_or_default mode) buffer)
         false (clock s) (uninit s)).
Proof.
  intros [inc0 tr cl clk u] target_path buffer mode mtime path inc.
  cbn [closed incoming trace clock uninit].
  intros -> -> He Hreq Ht.
  rewrite (push_through_loop _ _ _ _ _ _ _ _ _ He Hreq).
  unfold push_finish, bind. rewrite mtime_run. cbn [clock].
  unfold Fmt.struct_pack_I.
  destruct (Z.leb_spec 0 (match mtime with Some t => t | None => clk end));
    [destruct (Z.ltb_spec (match mtime with Some t => t | None => clk end)
                          4294967296); [lia|] |];
    reflexivity.
Qed.

Lemma push_mtime_out_of_range_fails_after_data_witness :
  ~ 0 <= -1 < 4294967296
  /\ push (slit "/sdcard/f") (blit "hello") None (Some (-1))
          (fresh (blit "OKAYOKAY0000"))
     = (inl StructError,
        mkWorld (blit "OKAY0000")
          (push_body_events (blit "/sdcard/f") 33261 (blit "hello"))
          false 0 (uninit (fresh []))).
Proof.
  split; [lia|].
  apply (push_mtime_out_of_range_fails_after_data
           (fresh (blit "OKAYOKAY0000")) (slit "/sdcard/f") (blit "hello")
           None (Some (-1)) (blit "/sdcard/f") (blit "OKAY0000"));
    try reflexivity.
  lia.
Defined.

(** X7: when the server refuses [sync:], [push] raises [RuntimeError] with
    the server's message and writes nothing more: no [SEND] header, no
    [DATA], no [DONE]; the socket is left open. *)
Theorem push_refused_sync_sends_nothing :
  forall (s : world) (target_path : str) (buffer : bytes)
         (mode mtime : option Z) (status lenfield payload rest : bytes),
    closed s = false ->
    len status = 4 -> status <> OKAY ->
    len lenfield = 4 -> Fmt.int16 lenfield = Some (len payload) ->
    incoming s = status ++ lenfield ++ payload ++ rest ->
    push target_path buffer mode mtime s
    = (inl (RuntimeError (ArgBytes payload)),
       mkWorld rest
         (trace s
            ++ [EvSend (blit "0005sync:"); EvRecvExactly 4; EvRecvExactly 4]
            ++ (if len payload =? 0 then []
                else [EvRecvExactly (len payload)]))
         false (clock s) (uninit s)).
Proof.
  intros [inc tr cl clk u] target_path buffer mode mtime
         status lenfield payload rest.
  cbn [closed incoming trace clock uninit].
  intros -> Hs Hst Hl Hint ->.
  unfold push. cbv zeta. unfold bind at 1.
  rewrite (service_fail (slit "sync:") (blit "sync:") status lenfield payload
             rest (len payload) tr clk u eq_refl Hs Hst Hl Hint eq_refl).
  reflexivity.
Qed.

Lemma push_refused_sync_sends_nothing_witness :
  Fmt.int16 (blit "0004") = Some (len (blit "nope"))
  /\ push (slit "/sdcard/f") (blit "hello") None None
          (fresh (blit "FAIL0004nope"))
     = (inl (RuntimeError (ArgBytes (blit "nope"))),
        mkWorld []
          [EvSend (blit "0005sync:"); EvRecvExactly 4; EvRecvExactly 4;
           EvRecvExactly 4]
          false 0 (uninit (fresh []))).
Proof.
  split; [reflexivity|].
  apply (push_refused_sync_sends_nothing
           (fresh (blit "FAIL0004nope")) (slit "/sdcard/f") (blit "hello")
           None None (blit "FAIL") (blit "0004") (blit "nope") []);
    try reflexivity.
  discriminate.
Defined.

(** ** Operations that never close the socket *)

(** [m] leaves the socket as open or as closed as it found it. *)
Definition keeps_open {A : Type} (m : M A) : Prop :=
  forall s : world, closed (snd (m s)) = closed s.

Lemma keeps_open_ret {A : Type} (a : A) : keeps_open (ret a).
Proof. intros s. reflexivity. Qed.

Lemma keeps_open_raise {A : Type} (e : exn) : keeps_open (@raise A e).
Proof. intros s. reflexivity. Qed.

Lemma keeps_open_lift_opt {A : Type} (e : exn) (o : option A) :
  keeps_open (lift_opt e o).
Proof. destruct o; intros s; reflexivity. Qed.

Lemma keeps_open_bind {A B : Type} (m : M A) (k : A -> M B) :
  keeps_open m -> (forall a, keeps_open (k a)) -> keeps_open (bind m k).
Proof.
  intros Hm Hk s. unfold bind. specialize (Hm s).
  destruct (m s) as [[e|a] s1]; cbn [snd] in *; [assumption|].
  now rewrite Hk.
Qed.

Lemma keeps_open_send (sock : sockref) (d : bytes) :
  keeps_open (sock_send sock d).
Proof. intros s. unfold sock_send. destruct (closed s) eqn:E; cbn; now rewrite ?E. Qed.

Lemma keeps_open_recvexactly (sock : sockref) (n : Z) :
  keeps_open (recvexactly sock n).
Proof.
  intros s. unfold recvexactly. destruct (closed s) eqn:E; cbn [snd];
    [assumption|].
  destruct (n <? 0); cbn [snd]; [assumption|].
  destruct (n <=? len (incoming s)); cbn; assumption.
Qed.

Lemma keeps_open_read_hexlen (sock : sockref) :
  keeps_open (_read_hexlen sock).
Proof.
  unfold _read_hexlen.
  apply keeps_open_bind; [apply keeps_open_recvexactly|]. intros digits.
  apply keeps_open_bind; [apply keeps_open_lift_opt|]. intros textlen.
  destruct (textlen =? 0); [apply keeps_open_ret|].
  apply keeps_open_bind; [apply keeps_open_recvexactly|]. intros buf.
  apply keeps_open_ret.
Qed.

Lemma keeps_open_check_okay (sock : sockref) : keeps_open (_check_okay sock).
Proof.
  unfold _check_okay.
  apply keeps_open_bind; [apply keeps_open_recvexactly|]. intros result.
  destruct (negb (bytes_eqb result OKAY)); [|apply keeps_open_ret].
  apply keeps_open_bind; [apply keeps_open_read_hexlen|]. intros msg.
  apply keeps_open_raise.
Qed.

Lemma keeps_open_service (cmd : str) : keeps_open (service cmd).
Proof.
  unfold service, str_encode.
  apply keeps_open_bind; [apply keeps_open_lift_opt|]. intros cmdbytes.
  apply keeps_open_bind; [apply keeps_open_send|]. intros _.
  apply keeps_open_bind; [apply keeps_open_check_okay|]. intros _.
  apply keeps_open_ret.
Qed.

Lemma keeps_open_registry (cmd : str) :
  keeps_open
    (service cmd ;;;
     raw <- read_response ;;
     resp <- bytes_decode Utf8.ignore raw ;;
     if Text.contains (slit "unable") resp
        || Text.contains (slit "cannot") resp
     then raise (RuntimeError (ArgStr resp))
     else ret tt).
Proof.
  apply keeps_open_bind; [apply keeps_open_service|]. intros _.
  apply keeps_open_bind; [apply keeps_open_read_hexlen|]. intros raw.
  apply keeps_open_bind; [apply keeps_open_lift_opt|]. intros resp.
  destruct (Text.contains (slit "unable") resp
            || Text.contains (slit "cannot") resp);
    [apply keeps_open_raise | apply keeps_open_ret].
Qed.

(** X8: the framed operations never close the socket, whether they return
    or raise and whatever the server sends: [service], [read_response],
    [devices], [connect], [disconnect], the transport selectors and the
    streaming [exec_stream] and [shell_stream] leave it as open, or as
    closed, as they found it.  Only [close], [push] and the blocking [exec]
    and [shell] call [close]. *)
Theorem framed_operations_never_close_the_socket :
  forall s : world,
    (forall cmd, closed (snd (service cmd s)) = closed s)
    /\ closed (snd (read_response s)) = closed s
    /\ closed (snd (devices s)) = closed s
    /\ (forall d, closed (snd (connect d s)) = closed s)
    /\ (forall d, closed (snd (disconnect d s)) = closed s)
    /\ (forall devid, closed (snd (device devid s)) = closed s)
    /\ closed (snd (usbdevice s)) = closed s
    /\ closed (snd (emulator s)) = closed s
    /\ (forall cmd, closed (snd (exec_stream cmd s)) = closed s)
    /\ (forall cmd, closed (snd (shell_stream cmd s)) = closed s).
Proof.
  intros s. repeat split.
  - intros cmd. apply keeps_open_service.
  - apply keeps_open_read_hexlen.
  - unfold devices.
    apply keeps_open_bind; [apply keeps_open_service|]. intros _.
    apply keeps_open_bind; [apply keeps_open_read_hexlen|]. intros raw.
    apply keeps_open_bind; [apply keeps_open_lift_opt|]. intros resp.
    apply keeps_open_ret.
  - intros d. apply (keeps_open_registry (slit "host:connect:" ++ d)).
  - intros d. apply (keeps_open_registry (slit "host:disconnect:" ++ d)).
  - intros [d|]; apply keeps_open_service.
  - apply keeps_open_service.
  - apply keeps_open_service.
  - intros cmd. unfold exec_stream.
    apply keeps_open_bind; [apply keeps_open_service|]. intros _.
    apply keeps_open_ret.
  - intros cmd. unfold shell_stream.
    apply keeps_open_bind; [apply keeps_open_service|]. intros _.
    apply keeps_open_ret.
Qed.

(** ** Decoding the server's text *)

(** Under [errors='ignore'] decoding always gives a text. *)
Lemma decode_ignore_bounded (n : nat) :
  forall b : bytes,
    (List.length b <= n)%nat -> exists r, Utf8.decode Utf8.ignore b = Some r.
Proof.
  induction n as [|n IH]; intros b Hb.
  - destruct b; [exists []; reflexivity | cbn in Hb; lia].
  - assert (Hemit : forall c t, (List.length t <= n)%nat ->
              exists r, Utf8.emit c (Utf8.decode Utf8.ignore t) = Some r).
    { intros c t Ht. destruct (IH t Ht) as [r ->]. eexists. reflexivity. }
    destruct b as [|b1 t1]; [exists []; reflexivity|].
    cbn [List.length] in Hb.
    cbn [Utf8.decode Utf8.ill_formed].
    repeat match goal with
           | |- exists r, Some _ = Some r => eexists; reflexivity
           | |- exists r, Utf8.emit _ (Utf8.decode Utf8.ignore ?t) = Some r =>
               apply Hemit; cbn [List.length] in *; lia
           | |- exists r, Utf8.decode Utf8.ignore ?t = Some r =>
               apply IH; cbn [List.length] in *; lia
           | |- exists r, (if ?c then _ else _) = Some r => destruct c
           | |- exists r, match ?t with [] => _ | _ :: _ => _ end = Some r =>
               destruct t; cbn [List.length] in *
           end.
Qed.

Lemma decode_ignore_total (b : bytes) :
  exists r, Utf8.decode Utf8.ignore b = Some r.
Proof. apply (decode_ignore_bounded (List.length b)). lia. Qed.

(** X9: whatever bytes the payload holds, [connect] and [disconnect] do not
    raise a decoding error: the payload always decodes to some text, bytes
    that are not UTF-8 being dropped, and the call either returns or raises
    [RuntimeError] with that text. *)
Theorem connect_takes_any_payload :
  forall (s : world) (device : str) (devbytes lenfield raw rest : bytes),
    closed s = false ->
    Utf8.encode device = Some devbytes ->
    len lenfield = 4 -> Fmt.int16 lenfield = Some (len raw) ->
    incoming s = OKAY ++ lenfield ++ raw ++ rest ->
    exists resp : str,
      Utf8.decode Utf8.ignore raw = Some resp
      /\ (fst (connect device s) = inr tt
          \/ fst (connect device s) = inl (RuntimeError (ArgStr resp)))
      /\ (fst (disconnect device s) = inr tt
          \/ fst (disconnect device s) = inl (RuntimeError (ArgStr resp))).
Proof.
  intros [inc tr cl clk u] device devbytes lenfield raw rest.
  cbn [closed incoming]. intros -> He Hl Hint ->.
  destruct (decode_ignore_total raw) as [resp Hd].
  exists resp. split; [exact Hd|].
  assert (Hc : Utf8.encode (slit "host:connect:" ++ device)
               = Some (blit "host:connect:" ++ devbytes))
    by (rewrite encode_app, He; reflexivity).
  assert (Hdis : Utf8.encode (slit "host:disconnect:" ++ device)
                 = Some (blit "host:disconnect:" ++ devbytes))
    by (rewrite encode_app, He; reflexivity).
  unfold connect, disconnect.
  rewrite (registry_run _ _ _ _ _ _ _ tr clk u Hc Hl Hint Hd).
  rewrite (registry_run _ _ _ _ _ _ _ tr clk u Hdis Hl Hint Hd).
  cbn [fst].
  destruct (Text.contains (slit "unable") resp
            || Text.contains (slit "cannot") resp); auto.
Qed.

Lemma connect_takes_any_payload_witness :
  Fmt.int16 (blit "0003") = Some (len [xff; "o"%byte; "k"%byte])
  /\ exists resp : str,
       Utf8.decode Utf8.ignore [xff; "o"%byte; "k"%byte] = Some resp
       /\ (fst (connect (slit "a:1")
                  (fresh (OKAY ++ blit "0003" ++ [xff; "o"%byte; "k"%byte])))
           = inr tt
           \/ fst (connect (slit "a:1")
                     (fresh (OKAY ++ blit "0003"
                                  ++ [xff; "o"%byte; "k"%byte])))
              = inl (RuntimeError (ArgStr resp))).
Proof.
  split; [reflexivity|].
  destruct (connect_takes_any_payload
              (fresh (OKAY ++ blit "0003" ++ [xff; "o"%byte; "k"%byte]))
              (slit "a:1") (blit "a:1") (blit "0003")
              [xff; "o"%byte; "k"%byte] []
              eq_refl eq_refl eq_refl eq_refl eq_refl)
    as (resp & Hd & Hc & _).
  exists resp. split; assumption.
Defined.

Lemma is_cont_below (b : byte) :
  Utf8.is_cont b = true -> (Byte.to_N b < 0xC0)%N.
Proof.
  unfold Utf8.is_cont. intros H. apply andb_true_iff in H as [_ H].
  now apply N.ltb_lt.
Qed.

Lemma In_tail_of_low (x y : byte) (t : bytes) :
  (0xF5 <= Byte.to_N x)%N -> (Byte.to_N y < 0xF5)%N ->
  In x (y :: t) -> In x t.
Proof. intros Hx Hy [->|H]; [lia | exact H]. Qed.

(** A byte from [F5] up occurs in no UTF-8 text: strict decoding raises. *)
Lemma decode_strict_rejects (n : nat) :
  forall (b : bytes) (x : byte),
    (List.length b <= n)%nat -> In x b -> (0xF5 <= Byte.to_N x)%N ->
    Utf8.decode Utf8.strict b = None.
Proof.
  induction n as [|n IH]; intros b x Hb Hin Hx.
  - destruct b; [destruct Hin | cbn in Hb; lia].
  - destruct b as [|b1 t1]; [destruct Hin|].
    cbn [List.length] in Hb. cbn [Utf8.decode Utf8.ill_formed].
    destruct (N.ltb_spec (Byte.to_N b1) 0x80) as [H1|H1].
    { apply In_tail_of_low in Hin; [|assumption|lia].
      rewrite (IH t1 x) by (assumption || lia). reflexivity. }
    destruct (N.ltb_spec (Byte.to_N b1) 0xC2) as [H2|H2]; [reflexivity|].
    destruct (N.ltb_spec (Byte.to_N b1) 0xE0) as [H3|H3].
    { apply In_tail_of_low in Hin; [|assumption|lia].
      destruct t1 as [|b2 t2]; [reflexivity|].
      destruct (Utf8.is_cont b2) eqn:E2; [|reflexivity].
      apply is_cont_below in E2.
      apply In_tail_of_low in Hin; [|assumption|lia].
      cbn [List.length] in Hb.
      rewrite (IH t2 x) by (assumption || lia). reflexivity. }
    destruct (N.ltb_spec (Byte.to_N b1) 0xF0) as [H4|H4].
    { apply In_tail_of_low in Hin; [|assumption|lia].
      destruct t1 as [|b2 t2]; [reflexivity|].
      destruct (Utf8.ok2_of3 b1 b2) eqn:E2; [|reflexivity].
      unfold Utf8.ok2_of3 in E2. apply andb_true_iff in E2 as [E2 _].
      apply is_cont_below in E2.
      apply In_tail_of_low in Hin; [|assumption|lia].
      destruct t2 as [|b3 t3]; [reflexivity|].
      destruct (Utf8.is_cont b3) eqn:E3; [|reflexivity].
      apply is_cont_below in E3.
      apply In_tail_of_low in Hin; [|assumption|lia].
      cbn [List.length] in Hb.
      rewrite (IH t3 x) by (assumption || lia). reflexivity. }
    destruct (N.ltb_spec (Byte.to_N b1) 0xF5) as [H5|H5]; [|reflexivity].
    apply In_tail_of_low in Hin; [|assumption|lia].
    destruct t1 as [|b2 t2]; [reflexivity|].
    destruct (Utf8.ok2_of4 b1 b2) eqn:E2; [|reflexivity].
    unfold Utf8.ok2_of4 in E2. apply andb_true_iff in E2 as [E2 _].
    apply is_cont_below in E2.
    apply In_tail_of_low in Hin; [|assumption|lia].
    destruct t2 as [|b3 t3]; [reflexivity|].
    destruct (Utf8.is_cont b3) eqn:E3; [|reflexivity].
    apply is_cont_below in E3.
    apply In_tail_of_low in Hin; [|assumption|lia].
    destruct t3 as [|b4 t4]; [reflexivity|].
    destruct (Utf8.is_cont b4) eqn:E4; [|reflexivity].
    apply is_cont_below in E4.
    apply In_tail_of_low in Hin; [|assumption|lia].
    cbn [List.length] in Hb.
    rewrite (IH t4 x) by (assumption || lia). reflexivity.
Qed.

(** X10: [devices] decodes strictly.  When the payload holds a byte from
    [0xF5] up, which no UTF-8 text contains, [devices] raises the decoding
    error, after the whole payload has been read; no list is returned. *)
Theorem devices_rejects_payload_that_is_not_utf8 :
  forall (s : world) (lenfield raw rest : bytes) (x : byte),
    closed s = false ->
    len lenfield = 4 -> Fmt.int16 lenfield = Some (len raw) ->
    incoming s = OKAY ++ lenfield ++ raw ++ rest ->
    In x raw -> (0xF5 <= Byte.to_N x)%N ->
    fst (devices s) = inl UnicodeDecodeError
    /\ incoming (snd (devices s)) = rest.
Proof.
  intros [inc tr cl clk u] lenfield raw rest x.
  cbn [closed incoming]. intros -> Hl Hint -> Hin Hx.
  rewrite (devices_run lenfield raw rest tr clk u Hl Hint).
  rewrite (decode_strict_rejects (List.length raw) raw x (le_n _) Hin Hx).
  split; reflexivity.
Qed.

Lemma devices_rejects_payload_that_is_not_utf8_witness :
  In xff [xff; x0a] /\ (0xF5 <= Byte.to_N xff)%N
  /\ fst (devices (fresh (OKAY ++ blit "0002" ++ [xff; x0a])))
     = inl UnicodeDecodeError.
Proof.
  assert (Hin : In xff [xff; x0a]) by (left; reflexivity).
  assert (Hx : (0xF5 <= Byte.to_N xff)%N) by (cbn; lia).
  split; [exact Hin|]. split; [exact Hx|].
  apply (devices_rejects_payload_that_is_not_utf8
           (fresh (OKAY ++ blit "0002" ++ [xff; x0a]))
           (blit "0002") [xff; x0a] [] xff
           eq_refl eq_refl eq_refl eq_refl Hin Hx).
Defined.

(** ** The rows of the device list *)

(** [sep.join(fields)] for a one-character separator. *)
Fixpoint join (sep : N) (fields : list str) : str :=
  match fields with
  | [] => []
  | [f] => f
  | f :: rest => f ++ sep :: join sep rest
  end.

Lemma split_nonempty (sep : N) (s : str) : Text.split sep s <> [].
Proof.
  destruct s as [|c s]; cbn [Text.split]; [discriminate|].
  destruct (c =? sep)%N; [discriminate|].
  destruct (Text.split sep s); discriminate.
Qed.

Lemma join_split (sep : N) (s : str) : join sep (Text.split sep s) = s.
Proof.
  induction s as [|c s IH]; [reflexivity|].
  cbn [Text.split]. destruct (N.eqb_spec c sep) as [->|Hne].
  - pose proof (split_nonempty sep s) as Hs.
    destruct (Text.split sep s) as [|f fs]; [contradiction|].
    cbn [join app] in *. now rewrite IH.
  - pose proof (split_nonempty sep s) as Hs.
    destruct (Text.split sep s) as [|f fs]; [contradiction|].
    destruct fs as [|g fs]; cbn [join app] in *; now rewrite <- IH.
Qed.

Lemma split_fields_plain (sep : N) (s : str) :
  Forall (fun f => ~ In sep f) (Text.split sep s).
Proof.
  induction s as [|c s IH]; cbn [Text.split].
  - constructor; [intros [] | constructor].
  - destruct (N.eqb_spec c sep) as [->|Hne].
    + constructor; [intros [] | exact IH].
    + destruct (Text.split sep s) as [|f fs]; [repeat constructor|].
      * intros [E|[]]. contradiction.
      * inversion IH as [|? ? Hf Hfs]; subst. constructor; [|exact Hfs].
        intros [E|Hin]; [contradiction | now apply Hf].
Qed.

(** X11: a row of [devices] is the tuple of the fields of its line: it has
    at least one field, no field contains a tab, and joining the fields with
    tabs gives the line back.  So the rows, joined, are the lines of the
    decoded payload, one row per line; a line without a tab gives a row of
    one field and not a pair. *)
Theorem devices_rows_are_the_fields_of_the_lines :
  forall (s : world) (lenfield raw rest : bytes) (resp : str),
    closed s = false ->
    len lenfield = 4 -> Fmt.int16 lenfield = Some (len raw) ->
    incoming s = OKAY ++ lenfield ++ raw ++ rest ->
    Utf8.decode Utf8.strict raw = Some resp ->
    exists rows : list (list str),
      fst (devices s) = inr rows
      /\ map (join Text.tab) rows = Text.splitlines resp
      /\ Forall (fun row => row <> []
                            /\ Forall (fun f => ~ In Text.tab f) row) rows.
Proof.
  intros [inc tr cl clk u] lenfield raw rest resp.
  cbn [closed incoming]. intros -> Hl Hint -> Hd.
  rewrite (devices_run lenfield raw rest tr clk u Hl Hint), Hd. cbn [fst].
  eexists. split; [reflexivity|]. split.
  - rewrite map_map. rewrite <- (map_id (Text.splitlines resp)) at 2.
    apply map_ext. intros line. apply join_split.
  - apply Forall_forall. intros row Hrow.
    apply in_map_iff in Hrow as (line & <- & _).
    split; [apply split_nonempty | apply split_fields_plain].
Qed.

Lemma devices_rows_are_the_fields_of_the_lines_witness :
  Utf8.decode Utf8.strict (blit "offline") = Some (slit "offline")
  /\ exists rows : list (list str),
       fst (devices (fresh (blit "OKAY0007offline"))) = inr rows
       /\ map (join Text.tab) rows = Text.splitlines (slit "offline").
Proof.
  split; [reflexivity|].
  destruct (devices_rows_are_the_fields_of_the_lines
              (fresh (blit "OKAY0007offline")) (blit "0007")
              (blit "offline") [] (slit "offline")
              eq_refl eq_refl eq_refl eq_refl eq_refl)
    as (rows & Hr & Hj & _).
  exists rows. split; assumption.
Defined.

(** ** The [SEND] header *)

Lemma push_finish_extends (mtime : option Z) (st : world) :
  exists new : list event,
    trace (snd (push_finish mtime st)) = trace st ++ new.
Proof.
  assert (H : emits (fun _ => True) (fun _ : unit => True)
                    (push_finish mtime)).
  { unfold push_finish.
    eapply emits_bind; [apply emits_mtime|]. intros t _.
    eapply emits_bind; [apply (emits_lift_opt _ (fun _ => True)); trivial|].
    intros trailer _.
    eapply emits_bind; [apply emits_sendall; exact I|]. intros _ _.
    eapply emits_bind; [apply emits_recvexactly; exact I|].
    intros response _.
    eapply emits_bind; [apply emits_close; exact I|]. intros _ _.
    destruct (negb (bytes_eqb (slice response 0 4) OKAY));
      [apply emits_raise | now apply emits_ret]. }
  destruct (H st) as (new & Ht & _). exists new. exact Ht.
Qed.

Lemma slice_suffix {A : Type} (a b : list A) (st : Z) :
  len a = st -> slice (a ++ b) st (len (a ++ b)) = b.
Proof.
  intros Hst. rewrite <- (app_nil_r b) at 1.
  rewrite len_app. apply slice_middle; [assumption | lia].
Qed.

(** X12: once [sync:] is accepted, the second thing [push] writes is the
    [SEND] header: the tag [SEND], then four bytes that hold, least
    significant first, the number of bytes that follow, then the encoded
    path, a comma and the mode in decimal digits.  With the mode left out
    the digits are [33261], which is [0o100755]. *)
Theorem push_send_header_is_framed :
  forall (s : world) (target_path : str) (buffer : bytes)
         (mode mtime : option Z) (path inc : bytes),
    closed s = false ->
    incoming s = OKAY ++ inc ->
    Utf8.encode target_path = Some path ->
    len (push_request path (mode_or_default mode)) < 4294967296 ->
    exists (header : bytes) (later : list event),
      trace (snd (push target_path buffer mode mtime s))
      = trace s
          ++ [EvSend (blit "0005sync:"); EvRecvExactly 4; EvSend header]
          ++ later
      /\ slice header 0 4 = blit "SEND"
      /\ le32_value (slice header 4 8) = len header - 8
      /\ slice header 8 (len header)
         = path ++ blit "," ++ Fmt.format_d (mode_or_default mode)
      /\ (mode = None
          -> Fmt.format_d (mode_or_default mode) = blit "33261").
Proof.
  intros [inc0 tr cl clk u] target_path buffer mode mtime path inc.
  cbn [closed incoming trace]. intros -> -> He Hreq.
  set (req := push_request path (mode_or_default mode)) in *.
  pose proof (len_nonneg req) as Hnn.
  rewrite (push_through_loop _ _ _ _ _ _ _ _ _ He Hreq).
  destruct (push_finish_extends mtime
              (mkWorld inc
                 (tr ++ push_body_events path (mode_or_default mode) buffer)
                 false clk u))
    as (new & Ht).
  exists (blit "SEND" ++ le32 (len req) ++ req).
  exists (map (fun c => EvSendAll (data_packet c)) (sections_of buffer)
            ++ new).
  rewrite Ht. cbn [trace]. unfold push_body_events. fold req.
  split; [now rewrite <- !app_assoc|].
  split; [now apply slice_prefix|].
  split.
  - rewrite (slice_middle (blit "SEND") (le32 (len req)) req 4 8)
      by reflexivity.
    rewrite le32_value_le32 by lia.
    rewrite !len_app, len_le32. change (len (blit "SEND")) with 4. lia.
  - split.
    + rewrite (app_assoc (blit "SEND")). now apply slice_suffix.
    + intros ->. reflexivity.
Qed.

Lemma push_send_header_is_framed_witness :
  Utf8.encode (slit "/sdcard/f") = Some (blit "/sdcard/f")
  /\ exists (header : bytes) (later : list event),
       trace (snd (push (slit "/sdcard/f") (blit "hello") None None
                        (fresh OKAY)))
       = [EvSend (blit "0005sync:"); EvRecvExactly 4; EvSend header] ++ later
       /\ slice header 8 (len header) = blit "/sdcard/f,33261".
Proof.
  split; [reflexivity|].
  destruct (push_send_header_is_framed
              (fresh OKAY) (slit "/sdcard/f") (blit "hello") None None
              (blit "/sdcard/f") [] eq_refl eq_refl eq_refl eq_refl)
    as (header & later & Ht & _ & _ & Hreq & _).
  exists header, later. split; assumption.
Defined.

(** ** Chunks of a buffer that is a whole number of windows *)



(** ** Commands too long for the prefix *)

Lemma hex_width_wide (n : Z) : 65535 < n -> 5 <= Fmt.hex_width n.
Proof.
  intros Hn. unfold Fmt.hex_width. destruct (Z.eqb_spec n 0); [lia|].
  assert (16 <= Z.log2 n) by (apply Z.log2_le_pow2; lia).
  assert (4 <= Z.log2 n / 4) by (apply Z.div_le_lower_bound; lia).
  lia.
Qed.

(** A number above [0xFFFF] is written with five digits or more. *)
Lemma format_04X_wide (n : Z) :
  65535 < n ->
  exists (a b c d : Z) (tail : bytes),
    Fmt.format_04X n
    = Fmt.hex_digit a :: Fmt.hex_digit b :: Fmt.hex_digit c
        :: Fmt.hex_digit d :: tail
    /\ tail <> []
    /\ 0 <= a < 16 /\ 0 <= b < 16 /\ 0 <= c < 16 /\ 0 <= d < 16.
Proof.
  intros Hn. pose proof (hex_width_wide n Hn) as Hw.
  unfold Fmt.format_04X, Fmt.sign_of.
  destruct (Z.ltb_spec n 0); [lia|]. rewrite Z.abs_eq by lia.
  replace (Z.max (4 - len (@nil byte)) (Fmt.hex_width n))
    with (Fmt.hex_width n) by (unfold len; cbn [List.length]; lia).
  destruct (Z.to_nat (Fmt.hex_width n)) as [|[|[|[|[|k]]]]] eqn:Ek;
    try lia.
  replace (S (S (S (S (S k))))) with ((k + 1) + 4)%nat by lia.
  rewrite seq_app, rev_app_distr, map_app.
  cbn [seq rev app map Nat.add].
  eexists _, _, _, _, _. split; [reflexivity|].
  split.
  - rewrite Nat.add_1_r, seq_S, rev_app_distr. cbn [rev app map].
    discriminate.
  - repeat split; apply Z.mod_pos_bound; lia.
Qed.

(** X14: [service] does not check the length of the command.  A command of
    more than [0xFFFF] bytes is sent all the same, behind a prefix of more
    than four characters; a peer that takes the first four characters for
    the length reads a number smaller than the length of the command. *)
Theorem service_does_not_check_command_length :
  forall (s : world) (cmd : str) (cmdbytes rest : bytes),
    closed s = false ->
    Utf8.encode cmd = Some cmdbytes ->
    65535 < len cmdbytes ->
    incoming s = OKAY ++ rest ->
    fst (service cmd s) = inr tt
    /\ trace (snd (service cmd s))
       = trace s ++ [EvSend (Fmt.format_04X (len cmdbytes) ++ cmdbytes);
                     EvRecvExactly 4]
    /\ 4 < len (Fmt.format_04X (len cmdbytes))
    /\ exists v : Z,
         Fmt.int16 (slice (Fmt.format_04X (len cmdbytes) ++ cmdbytes) 0 4)
         = Some v
         /\ v < len cmdbytes.
Proof.
  intros [inc tr cl clk u] cmd cmdbytes rest.
  cbn [closed incoming trace]. intros -> He Hlen ->.
  rewrite (service_ok cmd cmdbytes rest tr clk u He).
  split; [reflexivity|]. split; [reflexivity|].
  destruct (format_04X_wide (len cmdbytes) Hlen)
    as (a & b & c & d & tail & -> & Htail & Ha & Hb & Hc & Hd).
  split.
  - unfold len. cbn [List.length]. destruct tail; [contradiction|].
    cbn [List.length]. lia.
  - exists (((a * 16 + b) * 16 + c) * 16 + d). split; [|lia].
    change (Fmt.hex_digit a :: Fmt.hex_digit b :: Fmt.hex_digit c
              :: Fmt.hex_digit d :: tail)
      with ([Fmt.hex_digit a; Fmt.hex_digit b; Fmt.hex_digit c;
             Fmt.hex_digit d] ++ tail).
    rewrite <- app_assoc, slice_prefix by reflexivity.
    now apply int16_four_digits.
Qed.

Lemma service_does_not_check_command_length_witness :
  Utf8.encode (repeat 97%N (Z.to_nat 65536))
  = Some (repeat "a"%byte (Z.to_nat 65536))
  /\ 65535 < len (repeat "a"%byte (Z.to_nat 65536))
  /\ 4 < len (Fmt.format_04X (len (repeat "a"%byte (Z.to_nat 65536)))).
Proof.
  assert (He : Utf8.encode (repeat 97%N (Z.to_nat 65536))
               = Some (repeat "a"%byte (Z.to_nat 65536))).
  { rewrite encode_ascii.
    - now rewrite map_repeat.
    - apply Forall_forall. intros c Hc. apply repeat_spec in Hc.
      subst c. reflexivity. }
  assert (Hlen : 65535 < len (repeat "a"%byte (Z.to_nat 65536))).
  { unfold len. rewrite repeat_length, Z2Nat.id by discriminate.
    reflexivity. }
  split; [exact He|]. split; [exact Hlen|].
  apply (service_does_not_check_command_length
           (fresh OKAY) (repeat 97%N (Z.to_nat 65536))
           (repeat "a"%byte (Z.to_nat 65536)) []
           eq_refl He Hlen eq_refl).
Defined.

(** ** Replies that cannot be read *)



(** ** Length fields in lower case *)

(** The lower-case hexadecimal digit of value [v], for [v] below 16. *)
Definition hex_digit_lower (v : Z) : byte :=
  if v <? 10 then byte_of (Z.to_N (48 + v)) else byte_of (Z.to_N (87 + v)).

(** A digit in either case. *)
Definition hex_digit_in (upper : bool) (v : Z) : byte :=
  if upper then Fmt.hex_digit v else hex_digit_lower v.

Section AnyCaseDigits.
Variable v : Z.
Hypothesis Hv : 0 <= v < 16.
Variable up : bool.

Ltac any_digit_cases :=
  assert (Hc : v = 0 \/ v = 1 \/ v = 2 \/ v = 3 \/ v = 4 \/ v = 5 \/ v = 6
               \/ v = 7 \/ v = 8 \/ v = 9 \/ v = 10 \/ v = 11 \/ v = 12
               \/ v = 13 \/ v = 14 \/ v = 15) by lia;
  destruct up;
  repeat (destruct Hc as [-> | Hc]); try subst v.

Lemma any_case_value : Fmt.hex_value (hex_digit_in up v) = Some v.
Proof. any_digit_cases; reflexivity. Qed.

Lemma any_case_plain :
  Fmt.is_space (hex_digit_in up v) = false
  /\ Fmt.is_underscore (hex_digit_in up v) = false
  /\ Byte.eqb (hex_digit_in up v) "+"%byte = false
  /\ Byte.eqb (hex_digit_in up v) "-"%byte = false
  /\ Byte.eqb (hex_digit_in up v) "x"%byte
     || Byte.eqb (hex_digit_in up v) "X"%byte = false.
Proof. any_digit_cases; repeat split; reflexivity. Qed.

Lemma scan_digits_any_case (prev_us seen : bool) (acc : Z) (rest : bytes) :
  Fmt.scan_digits prev_us seen acc (hex_digit_in up v :: rest)
  = Fmt.scan_digits false true (acc * 16 + v) rest.
Proof.
  destruct any_case_plain as (_ & Hu & _).
  cbn [Fmt.scan_digits]. rewrite Hu, any_case_value. reflexivity.
Qed.
End AnyCaseDigits.

Lemma int16_any_case (a b c d : Z) (ua ub uc ud : bool) :
  0 <= a < 16 -> 0 <= b < 16 -> 0 <= c < 16 -> 0 <= d < 16 ->
  Fmt.int16 [hex_digit_in ua a; hex_digit_in ub b;
             hex_digit_in uc c; hex_digit_in ud d]
  = Some (((a * 16 + b) * 16 + c) * 16 + d).
Proof.
  intros Ha Hb Hc Hd. unfold Fmt.int16.
  destruct (any_case_plain a Ha ua) as (Hsp & Hus & Hpl & Hmi & _).
  destruct (any_case_plain b Hb ub) as (_ & _ & _ & _ & Hx).
  cbn [Fmt.skip_spaces]. rewrite Hsp.
  cbn [Fmt.strip_sign]. rewrite Hpl, Hmi.
  cbn [Fmt.strip_0x]. rewrite Hx, andb_false_r. rewrite Hus.
  rewrite (scan_digits_any_case a Ha), (scan_digits_any_case b Hb),
          (scan_digits_any_case c Hc), (scan_digits_any_case d Hd).
  cbn [Fmt.scan_digits Fmt.skip_spaces]. f_equal. lia.
Qed.

(** X16: the length field is read in either case.  Four hexadecimal digits,
    each in upper or in lower case, announce the number they write, and
    [read_response] then returns exactly that many bytes and leaves the
    rest: [001b] and [001B] both announce 27 bytes. *)
Theorem read_response_reads_length_in_either_case :
  forall (s : world) (a b c d : Z) (ua ub uc ud : bool)
         (payload rest : bytes),
    closed s = false ->
    0 <= a < 16 -> 0 <= b < 16 -> 0 <= c < 16 -> 0 <= d < 16 ->
    len payload = ((a * 16 + b) * 16 + c) * 16 + d ->
    incoming s
    = [hex_digit_in ua a; hex_digit_in ub b;
       hex_digit_in uc c; hex_digit_in ud d] ++ payload ++ rest ->
    fst (read_response s) = inr payload
    /\ incoming (snd (read_response s)) = rest.
Proof.
  intros [inc tr cl clk u] a b c d ua ub uc ud payload rest.
  cbn [closed incoming]. intros -> Ha Hb Hc Hd Hlen ->.
  unfold read_response.
  rewrite read_hexlen_ok;
    [split; reflexivity | reflexivity |].
  rewrite Hlen. now apply int16_any_case.
Qed.

Lemma read_response_reads_length_in_either_case_witness :
  [hex_digit_in false 0; hex_digit_in false 0;
   hex_digit_in false 0; hex_digit_in false 11] = blit "000b"
  /\ fst (read_response (fresh (blit "000bhello worldNEXT")))
     = inr (blit "hello world")
  /\ incoming (snd (read_response (fresh (blit "000bhello worldNEXT"))))
     = blit "NEXT".
Proof.
  split; [reflexivity|].
  apply (read_response_reads_length_in_either_case
           (fresh (blit "000bhello worldNEXT")) 0 0 0 11
           false false false false (blit "hello world") (blit "NEXT"));
    try reflexivity; lia.
Defined.

(** ** Encoding and decoding text *)

Section Utf8RoundTrip.
Local Open Scope N_scope.

Local Ltac Zify.zify_post_hook ::= Z.to_euclidean_division_equations.

Local Ltac crack :=
  repeat match goal with
         | |- context [N.ltb ?a ?b] => destruct (N.ltb_spec a b); try lia
         | |- context [N.leb ?a ?b] => destruct (N.leb_spec a b); try lia
         | |- context [N.eqb ?a ?b] => destruct (N.eqb_spec a b); try lia
         end.

Lemma Some_inj {A : Type} (x y : A) : Some x = Some y -> x = y.
Proof. intros H. now injection H. Qed.

(** Decoding, strict or not, reads the encoding of a code point back as the
    code point. *)
Lemma decode_encode_cp (h : Utf8.errors) (c : N) (b rest : bytes) :
  Utf8.encode_cp c = Some b ->
  Utf8.decode h (b ++ rest) = Utf8.emit c (Utf8.decode h rest).
Proof.
  unfold Utf8.encode_cp. intros H.
  destruct (N.ltb_spec c 0x80) as [H1|H1].
  { apply Some_inj in H. subst b. cbn [app Utf8.decode].
    rewrite !to_N_byte_of by lia. crack. reflexivity. }
  destruct (N.ltb_spec c 0x800) as [H2|H2].
  { apply Some_inj in H. subst b. cbn [app Utf8.decode].
    unfold Utf8.is_cont, Utf8.cp2.
    rewrite !to_N_byte_of by lia. crack. cbn [andb]. f_equal. lia. }
  destruct (N.ltb_spec c 0x10000) as [H3|H3].
  { destruct (N.leb_spec 0xD800 c) as [H4|H4];
      [destruct (N.leb_spec c 0xDFFF) as [H5|H5]; [discriminate H|]|];
      cbn [andb] in H; apply Some_inj in H; subst b;
      cbn [app Utf8.decode];
      unfold Utf8.ok2_of3, Utf8.is_cont, Utf8.cp3;
      rewrite !to_N_byte_of by lia; crack; cbn [andb negb];
      f_equal; lia. }
  destruct (N.ltb_spec c 0x110000) as [H4|H4]; [|discriminate H].
  apply Some_inj in H. subst b. cbn [app Utf8.decode].
  unfold Utf8.ok2_of4, Utf8.is_cont, Utf8.cp4.
  rewrite !to_N_byte_of by lia. crack; cbn [andb negb]; f_equal; lia.
Qed.

Lemma decode_encode (h : Utf8.errors) (s : str) (b : bytes) :
  Utf8.encode s = Some b -> Utf8.decode h b = Some s.
Proof.
  revert b. induction s as [|c s IH]; intros b H.
  - injection H as <-. reflexivity.
  - cbn [Utf8.encode] in H.
    destruct (Utf8.encode_cp c) as [bc|] eqn:Ec; [|discriminate H].
    destruct (Utf8.encode s) as [bs|]; [|discriminate H].
    injection H as <-.
    rewrite (decode_encode_cp h c bc bs Ec), (IH bs eq_refl). reflexivity.
Qed.
End Utf8RoundTrip.

(** X17: what the server lists is what [devices] returns.  When the payload
    is the UTF-8 encoding of a list of rows [serial TAB state NEWLINE],
    whose fields hold neither a tab nor a line boundary but may hold any
    other character, ASCII or not, [devices] returns these rows, in order,
    each as the tuple of serial and state. *)
Theorem devices_returns_the_rows_the_server_encoded :
  forall (s : world) (rows : list (str * str)) (lenfield raw rest : bytes),
    closed s = false ->
    Forall plain_row rows ->
    Utf8.encode (table_text rows) = Some raw ->
    len lenfield = 4 -> Fmt.int16 lenfield = Some (len raw) ->
    incoming s = OKAY ++ lenfield ++ raw ++ rest ->
    fst (devices s) = inr (map (fun r => [fst r; snd r]) rows)
    /\ incoming (snd (devices s)) = rest.
Proof.
  intros [inc tr cl clk u] rows lenfield raw rest.
  cbn [closed incoming]. intros -> Hrows He Hl Hint ->.
  rewrite (devices_run lenfield raw rest tr clk u Hl Hint).
  rewrite (decode_encode Utf8.strict _ _ He). cbn [fst snd incoming].
  now rewrite parse_table.
Qed.

Lemma devices_returns_the_rows_the_server_encoded_witness :
  Forall plain_row [([0x20AC%N; 49%N], slit "device")]
  /\ Utf8.encode (table_text [([0x20AC%N; 49%N], slit "device")])
     = Some ([xe2; x82; xac] ++ blit "1" ++ [x09] ++ blit "device" ++ [x0a])
  /\ fst (devices
            (fresh (OKAY ++ blit "000c" ++ [xe2; x82; xac] ++ blit "1"
                         ++ [x09] ++ blit "device" ++ [x0a])))
     = inr [[[0x20AC%N; 49%N]; slit "device"]].
Proof.
  assert (Hrows : Forall plain_row [([0x20AC%N; 49%N], slit "device")]).
  { constructor; [split; reflexivity | constructor]. }
  split; [exact Hrows|]. split; [reflexivity|].
  apply (devices_returns_the_rows_the_server_encoded
           (fresh (OKAY ++ blit "000c" ++ [xe2; x82; xac] ++ blit "1"
                        ++ [x09] ++ blit "device" ++ [x0a]))
           [([0x20AC%N; 49%N], slit "device")] (blit "000c")
           ([xe2; x82; xac] ++ blit "1" ++ [x09] ++ blit "device" ++ [x0a])
           [] eq_refl Hrows eq_refl eq_refl eq_refl eq_refl).
Defined.

(** ** Text that cannot be encoded *)

(** A surrogate code point has no UTF-8 encoding. *)
Lemma encode_rejects_surrogate (s : str) (c : N) :
  In c s -> (0xD800 <= c <= 0xDFFF)%N -> Utf8.encode s = None.
Proof.
  intros Hin Hc. induction s as [|d s IH]; [destruct Hin|].
  cbn [Utf8.encode]. destruct Hin as [->|Hin].
  - unfold Utf8.encode_cp.
    destruct (N.ltb_spec c 0x80); [lia|].
    destruct (N.ltb_spec c 0x800); [lia|].
    destruct (N.ltb_spec c 0x10000); [|lia].
    destruct (N.leb_spec 0xD800 c); [|lia].
    destruct (N.leb_spec c 0xDFFF); [|lia]. reflexivity.
  - rewrite (IH Hin). destruct (Utf8.encode_cp d); reflexivity.
Qed.

(** X18: a lone surrogate in a command or in a path.  [service] encodes the
    command before it touches the socket, so such a command raises the
    encoding error with nothing written and nothing read.  [push] encodes
    the path only behind the [sync:] request: with such a path it raises the
    encoding error once [sync:] has been sent and accepted, writes no [SEND]
    header and leaves the socket open. *)
Theorem unencodable_text_fails_before_or_after_sync :
  forall (s : world) (text : str) (c : N),
    In c text -> (0xD800 <= c <= 0xDFFF)%N ->
    service text s = (inl UnicodeEncodeError, s)
    /\ forall (buffer rest : bytes) (mode mtime : option Z),
         closed s = false ->
         incoming s = OKAY ++ rest ->
         push text buffer mode mtime s
         = (inl UnicodeEncodeError,
            mkWorld rest
              (trace s ++ [EvSend (blit "0005sync:"); EvRecvExactly 4])
              false (clock s) (uninit s)).
Proof.
  intros s text c Hin Hc.
  pose proof (encode_rejects_surrogate text c Hin Hc) as He. split.
  - unfold service, str_encode, bind. rewrite He. reflexivity.
  - intros buffer rest mode mtime Hcl Hinc.
    destruct s as [inc tr cl clk u].
    cbn [closed incoming trace clock uninit] in *. subst cl inc.
    unfold push. cbv zeta. unfold bind at 1.
    rewrite (service_ok (slit "sync:") (blit "sync:")) by reflexivity.
    unfold str_encode, bind. rewrite He. reflexivity.
Qed.

Lemma unencodable_text_fails_before_or_after_sync_witness :
  In 0xDC80%N (slit "/sdcard/" ++ [0xDC80%N])
  /\ (0xD800 <= 0xDC80 <= 0xDFFF)%N
  /\ push (slit "/sdcard/" ++ [0xDC80%N]) (blit "hello") None None
          (fresh (blit "OKAYOKAY0000"))
     = (inl UnicodeEncodeError,
        mkWorld (blit "OKAY0000")
          [EvSend (blit "0005sync:"); EvRecvExactly 4]
          false 0 (uninit (fresh []))).
Proof.
  assert (Hin : In 0xDC80%N (slit "/sdcard/" ++ [0xDC80%N]))
    by (apply in_or_app; right; left; reflexivity).
  assert (Hc : (0xD800 <= 0xDC80 <= 0xDFFF)%N) by lia.
  split; [exact Hin|]. split; [exact Hc|].
  destruct (unencodable_text_fails_before_or_after_sync
              (fresh (blit "OKAYOKAY0000"))
              (slit "/sdcard/" ++ [0xDC80%N]) 0xDC80%N Hin Hc)
    as (_ & H).
  apply (H (blit "hello") (blit "OKAY0000") None None); reflexivity.
Defined.
